(** * The fusis API client ([api/client.go]), embedded in Rocq

    The client is a thin layer over Go's [net/http], [encoding/json], [fmt]
    and [strings].  The functions of [client.go] are translated one by one in
    [Module Api]; the library functions they call are modelled in the modules
    before it, each after the behaviour of the Go function it stands for.

    - Go strings are byte strings: [string] (a list of [ascii], i.e. bytes).
    - Go's [int] status code and [time.Duration] are [Z].
    - A Go error is a value of the inductive type [error]; the package-level
      sentinel [ErrNoSuchService] is a constructor of its own, so comparing
      an error with it is the identity comparison that Go performs.
    - A [*T] is an [option T] ([None] is [nil]); a [[]T] is an
      [option (list T)] ([None] is the nil slice, [Some []] the empty one).
    - Network and body reads are effects: every operation runs in the state
      monad [M] over the log of the effects performed so far. *)

From Stdlib Require Import ZArith Ascii String List Bool Lia DecimalString.
From Stdlib Require Import DecimalPos DecimalZ.
From stdpp Require Import gmap strings.

Open Scope string_scope.
Open Scope list_scope.
Open Scope Z_scope.

(** ** Byte strings *)

Definition slash : ascii := "/"%char.

(** The double quote, byte 0x22. *)
Definition dquote : ascii := ascii_of_N 34.

(** [s] contains [sub]: [sub] occurs in [s] as a contiguous block. *)
Definition Contains (s sub : string) : Prop :=
  exists pre post : string, s = pre +:+ sub +:+ post.

(** The executable version of [Contains]. *)
Fixpoint containsb (s sub : string) : bool :=
  String.prefix sub s
  || match s with
     | EmptyString => false
     | String _ s' => containsb s' sub
     end.

(** Every byte of [s] satisfies [p]. *)
Fixpoint all_bytes (p : ascii -> bool) (s : string) : bool :=
  match s with
  | EmptyString => true
  | String c s' => p c && all_bytes p s'
  end.

Definition is_empty (s : string) : bool :=
  match s with EmptyString => true | String _ _ => false end.

(** [s] ends with the byte [c]. *)
Fixpoint ends_with (c : ascii) (s : string) : bool :=
  match s with
  | EmptyString => false
  | String a EmptyString => Ascii.eqb a c
  | String _ s' => ends_with c s'
  end.

(** [n] copies of the byte [c]. *)
Fixpoint replicate_byte (n : nat) (c : ascii) : string :=
  match n with
  | O => EmptyString
  | S n' => String c (replicate_byte n' c)
  end.

(** Every element of [elems] with [sep] before it. *)
Fixpoint join_after (sep : string) (elems : list string) : string :=
  match elems with
  | [] => EmptyString
  | e :: rest => sep +:+ e +:+ join_after sep rest
  end.

(** ** Package [strings] *)

Module Strings.

(** [strings.TrimRight(s, cutset)]: [s] without its trailing bytes that
    occur in [cutset].  Go trims code points; for a cutset of ASCII bytes,
    as the client's ["/"], that is the same as trimming bytes. *)
Fixpoint TrimRight (s cutset : string) : string :=
  match s with
  | EmptyString => EmptyString
  | String c s' =>
      let t := TrimRight s' cutset in
      if is_empty t && existsb (Ascii.eqb c) (list_ascii_of_string cutset)
      then EmptyString
      else String c t
  end.

(** [strings.Join(elems, sep)]. *)
Fixpoint Join (elems : list string) (sep : string) : string :=
  match elems with
  | [] => EmptyString
  | [e] => e
  | e :: rest => e +:+ sep +:+ Join rest sep
  end.

(** [strings.Split(s, sep)] for a separator of one byte (the client only
    passes ["/"]): the pieces of [s] between the occurrences of [sep], in
    order; one piece more than there are occurrences, so never empty. *)
Fixpoint Split (s : string) (sep : ascii) : list string :=
  match s with
  | EmptyString => [EmptyString]
  | String c s' =>
      let rest := Split s' sep in
      if Ascii.eqb c sep then EmptyString :: rest
      else match rest with
           | piece :: more => String c piece :: more
           | [] => [String c EmptyString]
           end
  end.

End Strings.


(** ** Errors *)

(** A Go [error] value.  [ErrNoSuchService] is the package-level variable of
    [client.go], created once by [errors.New]; every call of [fmt.Errorf]
    makes a fresh value, and the libraries ([net/http], [net/url], [io],
    [encoding/json]) make their own. *)
Inductive error : Type :=
| ErrNoSuchService
| fmt_error (msg : string)
| lib_error (msg : string).

(** The method [Error()]. *)
Definition Error (e : error) : string :=
  match e with
  | ErrNoSuchService => "no such service"
  | fmt_error msg => msg
  | lib_error msg => msg
  end.

(** What the libraries do and this development does not spell out. *)
Class Library := {
  (** [strconv.IsPrint] on the code points above U+00FF (Unicode tables). *)
  isPrint_wide : Z -> bool;
  (** The [*json.SyntaxError] that [json.Unmarshal] reports for a text
      that is not valid JSON. *)
  SyntaxError : string -> error
}.

(** ** Package [unicode/utf8] *)

Module Utf8.

Definition RuneError : Z := 0xFFFD.
Definition RuneSelf : Z := 0x80.

Definition byte_val (c : ascii) : Z := Z.of_N (N_of_ascii c).
Definition byte_of (z : Z) : ascii := ascii_of_N (Z.to_N (Z.land z 0xFF)).

(** A continuation byte: [locb <= b <= hicb]. *)
Definition between (lo hi b : Z) : bool := (lo <=? b) && (b <=? hi).

(** The table [first] together with [acceptRanges]: for a leading byte, the
    length of its sequence and the range its second byte must lie in;
    [None] for a byte that cannot start a sequence of two or more bytes. *)
Definition first (b0 : Z) : option (nat * Z * Z) :=
  if between 0xC2 0xDF b0 then Some (2%nat, 0x80, 0xBF)
  else if b0 =? 0xE0 then Some (3%nat, 0xA0, 0xBF)
  else if between 0xE1 0xEC b0 then Some (3%nat, 0x80, 0xBF)
  else if b0 =? 0xED then Some (3%nat, 0x80, 0x9F)
  else if between 0xEE 0xEF b0 then Some (3%nat, 0x80, 0xBF)
  else if b0 =? 0xF0 then Some (4%nat, 0x90, 0xBF)
  else if between 0xF1 0xF3 b0 then Some (4%nat, 0x80, 0xBF)
  else if b0 =? 0xF4 then Some (4%nat, 0x80, 0x8F)
  else None.

(** [utf8.DecodeRuneInString(s)]: the first code point of [s] and its width
    in bytes; [(RuneError, 1)] for an invalid encoding and [(RuneError, 0)]
    for the empty string. *)
Definition DecodeRuneInString (s : string) : Z * nat :=
  match s with
  | EmptyString => (RuneError, 0%nat)
  | String c0 s1 =>
      let b0 := byte_val c0 in
      if b0 <? RuneSelf then (b0, 1%nat)
      else
        match first b0 with
        | None => (RuneError, 1%nat)
        | Some (sz, lo, hi) =>
            match s1 with
            | EmptyString => (RuneError, 1%nat)
            | String c1 s2 =>
                let b1 := byte_val c1 in
                if negb (between lo hi b1) then (RuneError, 1%nat)
                else if (sz <=? 2)%nat then
                  (Z.lor (Z.shiftl (Z.land b0 0x1F) 6) (Z.land b1 0x3F), 2%nat)
                else
                  match s2 with
                  | EmptyString => (RuneError, 1%nat)
                  | String c2 s3 =>
                      let b2 := byte_val c2 in
                      if negb (between 0x80 0xBF b2) then (RuneError, 1%nat)
                      else if (sz <=? 3)%nat then
                        (Z.lor (Z.shiftl (Z.land b0 0x0F) 12)
                           (Z.lor (Z.shiftl (Z.land b1 0x3F) 6) (Z.land b2 0x3F)),
                         3%nat)
                      else
                        match s3 with
                        | EmptyString => (RuneError, 1%nat)
                        | String c3 _ =>
                            let b3 := byte_val c3 in
                            if negb (between 0x80 0xBF b3) then (RuneError, 1%nat)
                            else
                              (Z.lor (Z.shiftl (Z.land b0 0x07) 18)
                                 (Z.lor (Z.shiftl (Z.land b1 0x3F) 12)
                                    (Z.lor (Z.shiftl (Z.land b2 0x3F) 6)
                                       (Z.land b3 0x3F))),
                               4%nat)
                        end
                  end
            end
        end
  end.

(** [utf8.ValidRune(r)]. *)
Definition ValidRune (r : Z) : bool :=
  between 0 0xD7FF r || between 0xE000 0x10FFFF r.

(** Three bytes for a code point of the basic plane. *)
Definition encode3 (r : Z) : string :=
  String (byte_of (Z.lor 0xE0 (Z.shiftr r 12)))
    (String (byte_of (Z.lor 0x80 (Z.land (Z.shiftr r 6) 0x3F)))
       (String (byte_of (Z.lor 0x80 (Z.land r 0x3F))) EmptyString)).

(** [utf8.AppendRune(nil, r)]: the encoding of the code point [r]; the
    encoding of [RuneError] when [r] is not a valid code point. *)
Definition AppendRune (r : Z) : string :=
  if between 0 0x7F r then String (byte_of r) EmptyString
  else if between 0x80 0x7FF r then
    String (byte_of (Z.lor 0xC0 (Z.shiftr r 6)))
      (String (byte_of (Z.lor 0x80 (Z.land r 0x3F))) EmptyString)
  else if between 0x800 0xD7FF r || between 0xE000 0xFFFF r then encode3 r
  else if between 0x10000 0x10FFFF r then
    String (byte_of (Z.lor 0xF0 (Z.shiftr r 18)))
      (String (byte_of (Z.lor 0x80 (Z.land (Z.shiftr r 12) 0x3F)))
         (String (byte_of (Z.lor 0x80 (Z.land (Z.shiftr r 6) 0x3F)))
            (String (byte_of (Z.lor 0x80 (Z.land r 0x3F))) EmptyString)))
  else encode3 RuneError.

End Utf8.

(** ** Package [strconv] *)

Module Strconv.

(** The digit of the table [lowerhex] for a value below 16. *)
Definition lowerhex (d : Z) : ascii :=
  match Z.land d 0xF with
  | 0 => "0" | 1 => "1" | 2 => "2" | 3 => "3" | 4 => "4" | 5 => "5"
  | 6 => "6" | 7 => "7" | 8 => "8" | 9 => "9" | 10 => "a" | 11 => "b"
  | 12 => "c" | 13 => "d" | 14 => "e" | _ => "f"
  end%char.

(** The hexadecimal digits of [r] for the shifts [4*(n-1)], ..., [4], [0]. *)
Fixpoint hex_digits (n : nat) (r : Z) : string :=
  match n with
  | O => EmptyString
  | S n' => String (lowerhex (Z.shiftr r (4 * Z.of_nat n'))) (hex_digits n' r)
  end.

(** [strconv.IsPrint(r)]: the Latin-1 range is decided in the code, the
    rest by the tables of the library. *)
Definition IsPrint {lib : Library} (r : Z) : bool :=
  if r <=? 0xFF then
    if Utf8.between 0x20 0x7E r then true
    else if Utf8.between 0xA1 0xFF r then negb (r =? 0xAD)
    else false
  else isPrint_wide r.

(** [appendEscapedRune] for the double quote as quote character and neither
    [ASCIIonly] nor [graphicOnly]: how one code point is written inside the
    quotes. *)
Definition appendEscapedRune {lib : Library} (r : Z) : string :=
  if (r =? 0x22) || (r =? 0x5C) then
    String "\" (String (Utf8.byte_of r) EmptyString)
  else if IsPrint r then Utf8.AppendRune r
  else if r =? 0x07 then "\a"
  else if r =? 0x08 then "\b"
  else if r =? 0x0C then "\f"
  else if r =? 0x0A then "\n"
  else if r =? 0x0D then "\r"
  else if r =? 0x09 then "\t"
  else if r =? 0x0B then "\v"
  else if (r <? 0x20) || (r =? 0x7F) then "\x" +:+ hex_digits 2 r
  else if negb (Utf8.ValidRune r) then "\u" +:+ hex_digits 4 0xFFFD
  else if r <? 0x10000 then "\u" +:+ hex_digits 4 r
  else "\U" +:+ hex_digits 8 r.

(** The loop of [appendQuotedWith]: one step decodes a code point of [s]
    and skips its bytes.  [skip] counts the bytes of the current code point
    that are still to be passed over. *)
Fixpoint quote_loop {lib : Library} (skip : nat) (s : string) : string :=
  match s with
  | EmptyString => EmptyString
  | String c s' =>
      match skip with
      | S k => quote_loop k s'
      | O =>
          let '(r, width) := Utf8.DecodeRuneInString s in
          (if (width =? 1)%nat && (r =? Utf8.RuneError)
           then "\x" +:+ hex_digits 2 (Utf8.byte_val c)
           else appendEscapedRune r)
          +:+ quote_loop (width - 1) s'
      end
  end.

(** [strconv.Quote(s)]: [s] as a double-quoted Go string literal. *)
Definition Quote {lib : Library} (s : string) : string :=
  String dquote (quote_loop 0 s +:+ String dquote EmptyString).

(** [strconv.Itoa(n)]: [n] in decimal. *)
Definition Itoa (n : Z) : string := NilZero.string_of_int (Z.to_int n).

End Strconv.

(** ** Package [encoding/json] *)

Module Json.

(** A JSON text, parsed.  Strings and object keys keep the bytes between
    their quotes as they stand in the text (escapes are not expanded), and
    numbers keep their literal. *)
#[warnings="-register-all"] Inductive value : Type :=
| Null
| Bool (b : bool)
| Number (lit : string)
| Str (raw : string)
| Array (elems : list value)
| Object (members : list (string * value)).

Inductive token : Type :=
| TBeginArray | TEndArray | TBeginObject | TEndObject | TComma | TColon
| TScalar (v : value).

(** Where the scanner is inside a number. *)
Inductive phase : Type :=
| PMinus | PZero | PInt | PDot | PFrac | PExpMark | PExpSign | PExp.

(** The state of the scanner between two bytes; [acc] holds the bytes of
    the current string or number, last byte first. *)
Inductive lexer : Type :=
| Idle
| InString (acc : list ascii)
| InEscape (acc : list ascii)
| InHex (n : nat) (acc : list ascii)
| InLiteral (expected : list ascii) (v : value)
| InNumber (ph : phase) (acc : list ascii).

Definition text (acc : list ascii) : string := string_of_list_ascii (rev acc).

Definition is_space (c : ascii) : bool :=
  let b := Utf8.byte_val c in (b =? 0x20) || (b =? 0x09) || (b =? 0x0D) || (b =? 0x0A).

Definition is_digit (c : ascii) : bool := Utf8.between 0x30 0x39 (Utf8.byte_val c).

Definition is_digit19 (c : ascii) : bool := Utf8.between 0x31 0x39 (Utf8.byte_val c).

Definition is_hex (c : ascii) : bool :=
  let b := Utf8.byte_val c in
  Utf8.between 0x30 0x39 b || Utf8.between 0x61 0x66 b || Utf8.between 0x41 0x46 b.

Definition is_exp_mark (c : ascii) : bool := Ascii.eqb c "e" || Ascii.eqb c "E".

Definition is_sign (c : ascii) : bool := Ascii.eqb c "+" || Ascii.eqb c "-".

(** The bytes that may follow a backslash, [u] apart. *)
Definition is_simple_escape (c : ascii) : bool :=
  Ascii.eqb c dquote
  || existsb (Ascii.eqb c) (list_ascii_of_string "\/bfnrt").

(** A byte read between two tokens. *)
Definition step_idle (c : ascii) : option (lexer * list token) :=
  if is_space c then Some (Idle, [])
  else if Ascii.eqb c "[" then Some (Idle, [TBeginArray])
  else if Ascii.eqb c "]" then Some (Idle, [TEndArray])
  else if Ascii.eqb c "{" then Some (Idle, [TBeginObject])
  else if Ascii.eqb c "}" then Some (Idle, [TEndObject])
  else if Ascii.eqb c "," then Some (Idle, [TComma])
  else if Ascii.eqb c ":" then Some (Idle, [TColon])
  else if Ascii.eqb c dquote then Some (InString [], [])
  else if Ascii.eqb c "-" then Some (InNumber PMinus [c], [])
  else if Ascii.eqb c "0" then Some (InNumber PZero [c], [])
  else if is_digit19 c then Some (InNumber PInt [c], [])
  else if Ascii.eqb c "t" then Some (InLiteral (list_ascii_of_string "rue") (Bool true), [])
  else if Ascii.eqb c "f" then Some (InLiteral (list_ascii_of_string "alse") (Bool false), [])
  else if Ascii.eqb c "n" then Some (InLiteral (list_ascii_of_string "ull") Null, [])
  else None.

(** The number is complete before [c]; [c] starts what comes next. *)
Definition end_number (acc : list ascii) (c : ascii) : option (lexer * list token) :=
  match step_idle c with
  | Some (st, toks) => Some (st, TScalar (Number (text acc)) :: toks)
  | None => None
  end.

Definition step_number (ph : phase) (acc : list ascii) (c : ascii)
  : option (lexer * list token) :=
  let continue ph' := Some (InNumber ph' (c :: acc), []) in
  match ph with
  | PMinus =>
      if Ascii.eqb c "0" then continue PZero
      else if is_digit19 c then continue PInt else None
  | PZero =>
      if Ascii.eqb c "." then continue PDot
      else if is_exp_mark c then continue PExpMark else end_number acc c
  | PInt =>
      if is_digit c then continue PInt
      else if Ascii.eqb c "." then continue PDot
      else if is_exp_mark c then continue PExpMark else end_number acc c
  | PDot => if is_digit c then continue PFrac else None
  | PFrac =>
      if is_digit c then continue PFrac
      else if is_exp_mark c then continue PExpMark else end_number acc c
  | PExpMark =>
      if is_sign c then continue PExpSign
      else if is_digit c then continue PExp else None
  | PExpSign => if is_digit c then continue PExp else None
  | PExp => if is_digit c then continue PExp else end_number acc c
  end.

(** One byte of the scanner: the next state and the tokens completed. *)
Definition step (st : lexer) (c : ascii) : option (lexer * list token) :=
  match st with
  | Idle => step_idle c
  | InString acc =>
      if Ascii.eqb c dquote then Some (Idle, [TScalar (Str (text acc))])
      else if Ascii.eqb c "\" then Some (InEscape (c :: acc), [])
      else if Utf8.byte_val c <? 0x20 then None
      else Some (InString (c :: acc), [])
  | InEscape acc =>
      if is_simple_escape c then Some (InString (c :: acc), [])
      else if Ascii.eqb c "u" then Some (InHex 4 (c :: acc), [])
      else None
  | InHex n acc =>
      if is_hex c then
        match n with
        | S (S n') => Some (InHex (S n') (c :: acc), [])
        | _ => Some (InString (c :: acc), [])
        end
      else None
  | InLiteral expected v =>
      match expected with
      | [x] => if Ascii.eqb c x then Some (Idle, [TScalar v]) else None
      | x :: more => if Ascii.eqb c x then Some (InLiteral more v, []) else None
      | [] => None
      end
  | InNumber ph acc => step_number ph acc c
  end.

(** The end of the text: only between tokens, or after a number that is
    complete as it stands. *)
Definition finish (st : lexer) : option (list token) :=
  match st with
  | Idle => Some []
  | InNumber (PZero | PInt | PFrac | PExp) acc => Some [TScalar (Number (text acc))]
  | _ => None
  end.

Fixpoint scan (st : lexer) (s : string) : option (list token) :=
  match s with
  | EmptyString => finish st
  | String c s' =>
      match step st c with
      | Some (st', toks) =>
          match scan st' s' with
          | Some more => Some (toks ++ more)
          | None => None
          end
      | None => None
      end
  end.

(** An array or object that is still open, with what it holds so far (last
    first); an object also with the key whose value is being read. *)
Inductive frame : Type :=
| FArray (acc : list value)
| FObject (acc : list (string * value)) (key : string).

(** What the grammar allows next. *)
Inductive expect : Type :=
| EValue
| EValueOrEnd
| EKeyOrEnd
| EKey
| EColon (key : string)
| ENext
| EDone (v : value).

Definition parser : Type := list frame * expect.

(** The value [v] is complete: it goes into the innermost open container,
    or is the result. *)
Definition deliver (v : value) (stack : list frame) : parser :=
  match stack with
  | [] => ([], EDone v)
  | FArray acc :: up => (FArray (v :: acc) :: up, ENext)
  | FObject acc key :: up => (FObject ((key, v) :: acc) EmptyString :: up, ENext)
  end.

Definition close_array (stack : list frame) : option parser :=
  match stack with
  | FArray acc :: up => Some (deliver (Array (rev acc)) up)
  | _ => None
  end.

Definition close_object (stack : list frame) : option parser :=
  match stack with
  | FObject acc _ :: up => Some (deliver (Object (rev acc)) up)
  | _ => None
  end.

Definition begin_value (stack : list frame) (t : token) : option parser :=
  match t with
  | TScalar v => Some (deliver v stack)
  | TBeginArray => Some (FArray [] :: stack, EValueOrEnd)
  | TBeginObject => Some (FObject [] EmptyString :: stack, EKeyOrEnd)
  | _ => None
  end.

Definition begin_member (stack : list frame) (t : token) : option parser :=
  match t with
  | TScalar (Str key) => Some (stack, EColon key)
  | _ => None
  end.

Definition consume (p : parser) (t : token) : option parser :=
  let '(stack, e) := p in
  match e with
  | EValue => begin_value stack t
  | EValueOrEnd =>
      match t with TEndArray => close_array stack | _ => begin_value stack t end
  | EKeyOrEnd =>
      match t with TEndObject => close_object stack | _ => begin_member stack t end
  | EKey => begin_member stack t
  | EColon key =>
      match t, stack with
      | TColon, FObject acc _ :: up => Some (FObject acc key :: up, EValue)
      | _, _ => None
      end
  | ENext =>
      match t, stack with
      | TComma, FArray _ :: _ => Some (stack, EValue)
      | TComma, FObject _ _ :: _ => Some (stack, EKey)
      | TEndArray, _ => close_array stack
      | TEndObject, _ => close_object stack
      | _, _ => None
      end
  | EDone _ => None
  end.

Fixpoint consume_all (p : parser) (ts : list token) : option parser :=
  match ts with
  | [] => Some p
  | t :: ts' =>
      match consume p t with
      | Some p' => consume_all p' ts'
      | None => None
      end
  end.

(** The value that the text [s] denotes; [None] when [s] is not one JSON
    value with nothing but white space around it. *)
Definition parse (s : string) : option value :=
  match scan Idle s with
  | Some ts =>
      match consume_all ([], EValue) ts with
      | Some ([], EDone v) => Some v
      | _ => None
      end
  | None => None
  end.

(** How decoding a JSON value into a Go value ended: without error, with
    an error that the decoder notes before it goes on with the rest of the
    text (a value of the wrong kind for its target), or with an error that
    stops it (an error returned by an [UnmarshalJSON] method). *)
Inductive outcome : Type :=
| Decoded
| Saved (e : error)
| Aborted (e : error).

Definition error_of (o : outcome) : option error :=
  match o with
  | Decoded => None
  | Saved e | Aborted e => Some e
  end.

(** The outcome of decoding one element, then the rest: the decoder keeps
    the first error it noted, unless a later one stops it. *)
Definition and_then (o rest : outcome) : outcome :=
  match o, rest with
  | Decoded, _ => rest
  | Saved _, Aborted e => Aborted e
  | Saved e, _ => Saved e
  | Aborted e, _ => Aborted e
  end.

(** A Go struct type as [encoding/json] sees it. *)
Class Entity (T : Type) := {
  (** The zero value of the type. *)
  zero : T;
  (** The name of the type, as [reflect] prints it. *)
  type_name : string;
  (** [json.Marshal(v)]: the JSON text of [v], or an error. *)
  Marshal : T -> error + string;
  (** A JSON value other than [null] decoded into the struct [old]: the
      struct afterwards, and how decoding ended. *)
  decodeInto : value -> T -> T * outcome
}.

(** A Go type that [json.Unmarshal] is pointed at: [decodeValue v old] is
    the variable after the JSON value [v] was decoded into it, [old] being
    what it held before. *)
Class Target (T : Type) := {
  decodeValue : value -> T -> T * outcome
}.

(** How [reflect] names the kind of a JSON value in an
    [UnmarshalTypeError]. *)
Definition kind_name (v : value) : string :=
  match v with
  | Null => "null"
  | Bool _ => "bool"
  | Number _ => "number"
  | Str _ => "string"
  | Array _ => "array"
  | Object _ => "object"
  end.

Definition UnmarshalTypeError (v : value) (go_type : string) : error :=
  lib_error ("json: cannot unmarshal " +:+ kind_name v
             +:+ " into Go value of type " +:+ go_type).

(** Target [*T]: [null] sets the pointer to nil; any other value is decoded
    into the struct pointed to, a new zero struct when the pointer is nil. *)
Definition decode_pointer {T : Type} {entity : Entity T} (v : value) (old : option T)
  : option T * outcome :=
  match v with
  | Null => (None, Decoded)
  | _ =>
      let '(t, o) := decodeInto v (default zero old) in
      (Some t, o)
  end.

(** The elements of a JSON array decoded into a slice of pointers, element
    [i] into the [i]-th element of the old slice where there is one and
    into a nil pointer where the slice is grown.  The slice ends with the
    array, unless the decoder is stopped, which leaves the old elements
    after the current one. *)
Fixpoint decode_elements {T : Type} {entity : Entity T}
  (vs : list value) (old : list (option T)) : list (option T) * outcome :=
  match vs with
  | [] => ([], Decoded)
  | v :: vs' =>
      let '(x, o) := decode_pointer v (default None (head old)) in
      match o with
      | Aborted e => (x :: tail old, Aborted e)
      | _ =>
          let '(xs, rest) := decode_elements vs' (tail old) in
          (x :: xs, and_then o rest)
      end
  end.

(** Target [[]*T]: [null] sets the slice to nil, an array fills it (an
    empty array gives an empty slice that is not nil), and any other value
    is an error that leaves it as it was. *)
Definition decode_slice {T : Type} {entity : Entity T}
  (v : value) (old : option (list (option T)))
  : option (list (option T)) * outcome :=
  match v with
  | Null => (None, Decoded)
  | Array vs =>
      let '(xs, o) := decode_elements vs (default [] old) in
      (Some xs, o)
  | _ => (old, Saved (UnmarshalTypeError v ("[]*" +:+ type_name)))
  end.

#[global] Instance pointer_target {T : Type} {entity : Entity T} : Target (option T) :=
  {| decodeValue := decode_pointer |}.

#[global] Instance slice_target {T : Type} {entity : Entity T}
  : Target (option (list (option T))) :=
  {| decodeValue := decode_slice |}.

(** [json.Unmarshal(data, &obj)]: the variable [obj] afterwards, and the
    error.  A text that is not valid JSON is refused before anything is
    decoded. *)
Definition Unmarshal {T : Type} {lib : Library} {target : Target T} (data : string) (obj : T)
  : T * option error :=
  match parse data with
  | None => (obj, Some (SyntaxError data))
  | Some v =>
      let '(obj', o) := decodeValue v obj in
      (obj', error_of o)
  end.

End Json.

(** ** Package [fmt] *)

Module Fmt.

(** The verb [%v] for an [int]. *)
Definition verb_v (n : Z) : string := Strconv.Itoa n.

(** The verb [%q] for a string. *)
Definition verb_q {lib : Library} (s : string) : string := Strconv.Quote s.

(** The verb [%s] for an error. *)
Definition verb_s (e : error) : string := Error e.

(** [fmt.Errorf]: a new error whose text is the formatted message. *)
Definition Errorf (formatted : string) : error := fmt_error formatted.

End Fmt.

(** ** Package [time] *)

Module Time.

(** A [time.Duration] counts nanoseconds. *)
Definition Second : Z := 1000000000.
Definition Minute : Z := 60 * Second.

End Time.

(** ** Package [net/http] *)

Module Http.

Definition StatusOK : Z := 200.
Definition StatusCreated : Z := 201.
Definition StatusNoContent : Z := 204.
Definition StatusNotFound : Z := 404.

(** A response body: what [ioutil.ReadAll] gets out of it, the bytes read
    and the error that ended the reading, if one did. *)
Record ReadCloser : Type := {
  content : string;
  read_error : option error
}.

Record Response : Type := {
  StatusCode : Z;
  Header : gmap string (list string);
  Body : ReadCloser
}.

Record Request : Type := {
  Method : string;
  URL : string;
  RequestHeader : gmap string (list string);
  RequestBody : option string
}.

Record Dialer : Type := {
  Dialer_Timeout : Z;
  Dialer_KeepAlive : Z
}.

(** The fields of [http.Transport] that the client sets; [Dial] is the
    method of the dialer held here. *)
Record Transport : Type := {
  Dial : Dialer;
  TLSHandshakeTimeout : Z;
  MaxIdleConnsPerHost : Z;
  DisableKeepAlives : bool
}.

Record Client : Type := {
  Client_Transport : Transport;
  Client_Timeout : Z
}.

(** [Header.Get(key)] for a key in canonical form, as [Location] is: the
    first value stored under the key, the empty string when there is none. *)
Definition Header_Get (h : gmap string (list string)) (key : string) : string :=
  match h !! key with
  | Some (v :: _) => v
  | _ => EmptyString
  end.

(** [Header.Set(key, value)] for a key in canonical form. *)
Definition Header_Set (h : gmap string (list string)) (key v : string)
  : gmap string (list string) :=
  <[key := [v]]> h.

(** The transport keeps no idle connection: [Transport.tryPutIdleConn]
    refuses every connection when keep-alives are disabled or
    [MaxIdleConnsPerHost] is negative. *)
Definition keeps_no_idle_conn (t : Transport) : bool :=
  DisableKeepAlives t || (MaxIdleConnsPerHost t <? 0).

End Http.

(** ** Effects *)

(** What an operation does to the world outside, in order. *)
Inductive event : Type :=
| Sent (c : Http.Client) (req : Http.Request)
| BodyRead (body : Http.ReadCloser)
| BodyClosed (body : Http.ReadCloser).

(** A computation with effects: from the log of the effects so far to a
    result and the log afterwards. *)
Definition M (A : Type) : Type := list event -> A * list event.

#[global] Instance M_ret : MRet M := fun A a log => (a, log).

#[global] Instance M_bind : MBind M :=
  fun A B k m log => let '(a, log') := m log in k a log'.

Definition emit (e : event) : M unit := fun log => (tt, log ++ [e]).

(** [defer cleanup] followed by [body]: [cleanup] runs when [body] has
    returned. *)
Definition defer {A : Type} (cleanup : M unit) (body : M A) : M A :=
  a ← body; _ ← cleanup; mret a.

(** The network, and the part of [net/url] that decides whether a request
    can be built. *)
Class Network := {
  (** [url.Parse(rawurl)]: the error, if the text is refused. *)
  url_Parse : string -> option error;
  (** What [c.Do(req)] comes back with: the response of the server, or the
      error of the transport. *)
  exchange : Http.Client -> Http.Request -> error + Http.Response
}.

Module HttpClient.

(** [http.NewRequest(method, url, body)] for the methods the client uses. *)
Definition NewRequest {net : Network} (method url : string) (body : option string)
  : error + Http.Request :=
  match url_Parse url with
  | Some e => inl e
  | None =>
      inr {| Http.Method := method; Http.URL := url;
             Http.RequestHeader := ∅; Http.RequestBody := body |}
  end.

(** [c.Do(req)]. *)
Definition Do {net : Network} (c : Http.Client) (req : Http.Request)
  : M (error + Http.Response) :=
  _ ← emit (Sent c req); mret (exchange c req).

(** [c.Get(url)]. *)
Definition Get {net : Network} (c : Http.Client) (url : string)
  : M (error + Http.Response) :=
  match NewRequest "GET" url None with
  | inl e => mret (inl e)
  | inr req => Do c req
  end.

(** [c.Post(url, contentType, body)]. *)
Definition Post {net : Network} (c : Http.Client) (url contentType body : string)
  : M (error + Http.Response) :=
  match NewRequest "POST" url (Some body) with
  | inl e => mret (inl e)
  | inr req =>
      Do c {| Http.Method := Http.Method req; Http.URL := Http.URL req;
              Http.RequestHeader :=
                Http.Header_Set (Http.RequestHeader req) "Content-Type" contentType;
              Http.RequestBody := Http.RequestBody req |}
  end.

(** [ioutil.ReadAll(body)]. *)
Definition ReadAll (body : Http.ReadCloser) : M (string * option error) :=
  _ ← emit (BodyRead body); mret (Http.content body, Http.read_error body).

(** [body.Close()]. *)
Definition Close (body : Http.ReadCloser) : M unit := emit (BodyClosed body).

End HttpClient.

(** ** Package [ipvs] *)

(** [client.go] imports [github.com/luizbafilho/fusis/ipvs] for the types
    [ipvs.Service] and [ipvs.Destination].  The package is not among the
    sources at hand, so the two struct types, their JSON form and the one
    field the client reads, [Destination.ServiceId], are parameters. *)
Module Ipvs.

Class Types := {
  Service : Type;
  Destination : Type;
  ServiceId : Destination -> string;
  Service_json : Json.Entity Service;
  Destination_json : Json.Entity Destination
}.

#[global] Existing Instance Service_json.
#[global] Existing Instance Destination_json.

End Ipvs.

(** ** Package [api]: [client.go] *)

Module Api.

Record Client : Type := {
  Addr : string;
  HttpClient : Http.Client
}.

Definition NewClient (addr : string) : Client :=
  let baseTimeout := 30 * Time.Second in
  let fullTimeout := Time.Minute in
  {| Addr := addr;
     HttpClient :=
       {| Http.Client_Transport :=
            {| Http.Dial :=
                 {| Http.Dialer_Timeout := baseTimeout;
                    Http.Dialer_KeepAlive := baseTimeout |};
               Http.TLSHandshakeTimeout := baseTimeout;
               Http.MaxIdleConnsPerHost := -1;
               Http.DisableKeepAlives := true |};
          Http.Client_Timeout := fullTimeout |} |}.

Definition path (c : Client) (paths : list string) : string :=
  Strings.Join (Strings.TrimRight (Addr c) "/" :: paths) "/".

(** [parts[len(parts)-1]]; the index is in range because [Split] never
    returns an empty slice ([idFromLocation_index_in_range]), so the
    default of [nth] is not used. *)
Definition idFromLocation (resp : Http.Response) : string :=
  let parts := Strings.Split (Http.Header_Get (Http.Header resp) "Location") slash in
  nth (length parts - 1)%nat parts EmptyString.

Definition encode {T : Type} {entity : Json.Entity T} (obj : T) : error + string :=
  match Json.Marshal obj with
  | inl err => inl err
  | inr b => inr b
  end.

Section Operations.

Context {lib : Library} {net : Network} {ipvs : Ipvs.Types}.

(** [decode(body, &obj)]: the variable [obj] afterwards, and the error. *)
Definition decode {T : Type} {target : Json.Target T} (body : Http.ReadCloser) (obj : T)
  : M (T * option error) :=
  '(data, err) ← HttpClient.ReadAll body;
  match err with
  | Some e => mret (obj, Some e)
  | None =>
      let '(obj', err) := Json.Unmarshal data obj in
      match err with
      | Some e =>
          mret (obj', Some (Fmt.Errorf ("unable to unmarshal body " +:+ Fmt.verb_q data
                                        +:+ ": " +:+ Fmt.verb_s e)))
      | None => mret (obj', None)
      end
  end.

Definition formatError (resp : Http.Response) : M error :=
  '(body, _) ← HttpClient.ReadAll (Http.Body resp);
  mret (Fmt.Errorf ("Request failed. Status Code: " +:+ Fmt.verb_v (Http.StatusCode resp)
                    +:+ ". Body: " +:+ Fmt.verb_q body)).

Definition GetServices (c : Client)
  : M (option (list (option Ipvs.Service)) * option error) :=
  r ← HttpClient.Get (HttpClient c) (path c ["services"]);
  match r with
  | inl err => mret (None, Some err)
  | inr resp =>
      defer (HttpClient.Close (Http.Body resp))
        (let services : option (list (option Ipvs.Service)) := None in
         if Http.StatusCode resp =? Http.StatusOK then
           '(services, err) ← decode (Http.Body resp) services;
           mret (services, err)
         else if Http.StatusCode resp =? Http.StatusNoContent then
           let services := Some [] in
           mret (services, None)
         else
           e ← formatError resp;
           mret (None, Some e))
  end.

Definition GetService (c : Client) (id : string)
  : M (option Ipvs.Service * option error) :=
  r ← HttpClient.Get (HttpClient c) (path c ["services"; id]);
  match r with
  | inl err => mret (None, Some err)
  | inr resp =>
      defer (HttpClient.Close (Http.Body resp))
        (let svc : option Ipvs.Service := None in
         if Http.StatusCode resp =? Http.StatusOK then
           '(svc, err) ← decode (Http.Body resp) svc;
           mret (svc, err)
         else if Http.StatusCode resp =? Http.StatusNotFound then
           mret (None, Some ErrNoSuchService)
         else
           e ← formatError resp;
           mret (None, Some e))
  end.

Definition CreateService (c : Client) (svc : Ipvs.Service)
  : M (string * option error) :=
  match encode svc with
  | inl err => mret (EmptyString, Some err)
  | inr json =>
      r ← HttpClient.Post (HttpClient c) (path c ["services"]) "application/json" json;
      match r with
      | inl err => mret (EmptyString, Some err)
      | inr resp =>
          defer (HttpClient.Close (Http.Body resp))
            (if negb (Http.StatusCode resp =? Http.StatusCreated) then
               e ← formatError resp;
               mret (EmptyString, Some e)
             else mret (idFromLocation resp, None))
      end
  end.

Definition DeleteService (c : Client) (id : string) : M (option error) :=
  match HttpClient.NewRequest "DELETE" (path c ["services"; id]) None with
  | inl err => mret (Some err)
  | inr req =>
      r ← HttpClient.Do (HttpClient c) req;
      match r with
      | inl err => mret (Some err)
      | inr resp =>
          defer (HttpClient.Close (Http.Body resp))
            (if negb (Http.StatusCode resp =? Http.StatusOK) then
               e ← formatError resp;
               mret (Some e)
             else mret None)
      end
  end.

Definition AddDestination (c : Client) (dst : Ipvs.Destination)
  : M (string * option error) :=
  match encode dst with
  | inl err => mret (EmptyString, Some err)
  | inr json =>
      r ← HttpClient.Post (HttpClient c)
            (path c ["services"; Ipvs.ServiceId dst; "destinations"])
            "application/json" json;
      match r with
      | inl err => mret (EmptyString, Some err)
      | inr resp =>
          defer (HttpClient.Close (Http.Body resp))
            (if negb (Http.StatusCode resp =? Http.StatusCreated) then
               e ← formatError resp;
               mret (EmptyString, Some e)
             else mret (idFromLocation resp, None))
      end
  end.

Definition DeleteDestination (c : Client) (serviceId destinationId : string)
  : M (option error) :=
  match HttpClient.NewRequest "DELETE"
          (path c ["services"; serviceId; "destinations"; destinationId]) None with
  | inl err => mret (Some err)
  | inr req =>
      r ← HttpClient.Do (HttpClient c) req;
      match r with
      | inl err => mret (Some err)
      | inr resp =>
          defer (HttpClient.Close (Http.Body resp))
            (if negb (Http.StatusCode resp =? Http.StatusOK) then
               e ← formatError resp;
               mret (Some e)
             else mret None)
      end
  end.

End Operations.

End Api.

(** ** What the specification speaks of *)

Module Spec.

Section Spec.

Context {lib : Library} {net : Network} {ipvs : Ipvs.Types}.

(** The request that [c.Get(url)] builds. *)
Definition get_request (url : string) : Http.Request :=
  {| Http.Method := "GET"; Http.URL := url;
     Http.RequestHeader := ∅; Http.RequestBody := None |}.

(** The request that [c.Post(url, "application/json", body)] builds. *)
Definition post_request (url body : string) : Http.Request :=
  {| Http.Method := "POST"; Http.URL := url;
     Http.RequestHeader := {[ "Content-Type" := ["application/json"] ]};
     Http.RequestBody := Some body |}.

(** The request that [http.NewRequest("DELETE", url, nil)] builds. *)
Definition delete_request (url : string) : Http.Request :=
  {| Http.Method := "DELETE"; Http.URL := url;
     Http.RequestHeader := ∅; Http.RequestBody := None |}.

(** The request [req] of the client [c] can be built and the server
    answers it with the response [resp]. *)
Definition answered (c : Api.Client) (req : Http.Request) (resp : Http.Response)
  : Prop :=
  url_Parse (Http.URL req) = None
  /\ exchange (Api.HttpClient c) req = inr resp.

(** The generic formatted error for the response [resp]. *)
Definition generic_error (resp : Http.Response) : error :=
  fst (Api.formatError resp []).

(** What decoding the body of [resp] makes of a variable that holds
    [obj]: the variable afterwards and the error. *)
Definition decoded {T : Type} {target : Json.Target T} (resp : Http.Response) (obj : T)
  : T * option error :=
  fst (Api.decode (Http.Body resp) obj []).

(** The outcome [out] of an operation that creates, for the response
    [resp]: success exactly for status 201, then with the last piece of the
    [Location] header split on the slash as identifier; otherwise the empty
    identifier and the generic formatted error. *)
Definition created (out : string * option error) (resp : Http.Response) : Prop :=
  (snd out = None <-> Http.StatusCode resp = 201)
  /\ (Http.StatusCode resp = 201 ->
      out = (List.last
               (Strings.Split (Http.Header_Get (Http.Header resp) "Location") slash)
               EmptyString,
             None))
  /\ (Http.StatusCode resp <> 201 -> out = (EmptyString, Some (generic_error resp))).

(** The error [e] is the generic formatted error for [resp], and so not the
    sentinel. *)
Definition generic_not_sentinel (e : option error) (resp : Http.Response) : Prop :=
  e = Some (generic_error resp) /\ e <> Some ErrNoSuchService.

(** A byte that [strconv.Quote] copies as it is: printable ASCII other
    than the double quote and the backslash. *)
Definition plain (c : ascii) : bool :=
  let b := Utf8.byte_val c in
  Utf8.between 0x20 0x7E b && negb (b =? 0x22) && negb (b =? 0x5C).

End Spec.

End Spec.

(** ** Concrete instances, to run the operations *)

Module Sample.

(** Stand-ins for the tables and messages of the libraries: every code
    point above U+00FF counts as printable, and every syntax error has one
    text. *)
Definition library : Library :=
  {| isPrint_wide := fun _ => true;
     SyntaxError := fun _ => lib_error "invalid JSON text" |}.

(** Modelled from the spec: the struct [ipvs.Destination], whose declaration
    is in the package [ipvs] and not in [client.go].  A destination has an
    identifier, the identifier of its service, an address, a port, a weight
    and a forwarding mode.  The address is an IP address held as raw bytes,
    as Go's [net.IP]. *)
Record Destination : Type := {
  Destination_Id : string;
  Destination_ServiceId : string;
  Destination_Host : string;
  Destination_Port : Z;
  Destination_Weight : Z;
  Destination_Mode : string
}.

(** Modelled from the spec: the struct [ipvs.Service], whose declaration is
    in the package [ipvs] and not in [client.go].  A service has an
    identifier, an address, a port, a protocol, a scheduler and its
    destinations, in order. *)
Record Service : Type := {
  Service_Id : string;
  Service_Host : string;
  Service_Port : Z;
  Service_Protocol : string;
  Service_Scheduler : string;
  Service_Destinations : list Destination
}.

Definition quoted (s : string) : string :=
  String dquote (s +:+ String dquote EmptyString).

(** An IPv4 address in text, as [net.IP.MarshalText] gives it: nothing for
    no address, dotted decimal for four bytes; an address of another length
    is refused.  (Sixteen bytes, which Go accepts too, are left out.) *)
Definition ip_text (ip : string) : error + string :=
  match list_ascii_of_string ip with
  | [] => inr EmptyString
  | [a; b; c; d] =>
      inr (Strings.Join (map (fun x => Strconv.Itoa (Utf8.byte_val x)) [a; b; c; d]) ".")
  | _ => inl (lib_error "invalid IP address")
  end.

Definition member (key text : string) : string := quoted key +:+ ":" +:+ text.

Definition object (members : list string) : string :=
  "{" +:+ Strings.Join members "," +:+ "}".

Definition marshal_destination (d : Destination) : error + string :=
  match ip_text (Destination_Host d) with
  | inl e => inl e
  | inr host =>
      inr (object [member "Id" (quoted (Destination_Id d));
                   member "ServiceId" (quoted (Destination_ServiceId d));
                   member "Host" (quoted host);
                   member "Port" (Strconv.Itoa (Destination_Port d));
                   member "Weight" (Strconv.Itoa (Destination_Weight d));
                   member "Mode" (quoted (Destination_Mode d))])
  end.

Definition marshal_service (s : Service) : error + string :=
  match ip_text (Service_Host s) with
  | inl e => inl e
  | inr host =>
      inr (object [member "Id" (quoted (Service_Id s));
                   member "Host" (quoted host);
                   member "Port" (Strconv.Itoa (Service_Port s));
                   member "Protocol" (quoted (Service_Protocol s));
                   member "Scheduler" (quoted (Service_Scheduler s))])
  end.

(** The string member [key] of a JSON object, when it has one. *)
Fixpoint string_member (key : string) (members : list (string * Json.value))
  : option string :=
  match members with
  | [] => None
  | (k, v) :: more =>
      match v with
      | Json.Str raw => if String.eqb k key then Some raw else string_member key more
      | _ => string_member key more
      end
  end.

(** Decoding for the stand-in types reads the identifiers and leaves the
    other fields as they were. *)
Definition decode_service (v : Json.value) (old : Service) : Service * Json.outcome :=
  match v with
  | Json.Object members =>
      ({| Service_Id := default (Service_Id old) (string_member "Id" members);
          Service_Host := Service_Host old;
          Service_Port := Service_Port old;
          Service_Protocol := Service_Protocol old;
          Service_Scheduler := Service_Scheduler old;
          Service_Destinations := Service_Destinations old |},
       Json.Decoded)
  | _ => (old, Json.Saved (Json.UnmarshalTypeError v "ipvs.Service"))
  end.

Definition decode_destination (v : Json.value) (old : Destination)
  : Destination * Json.outcome :=
  match v with
  | Json.Object members =>
      ({| Destination_Id := default (Destination_Id old) (string_member "Id" members);
          Destination_ServiceId :=
            default (Destination_ServiceId old) (string_member "ServiceId" members);
          Destination_Host := Destination_Host old;
          Destination_Port := Destination_Port old;
          Destination_Weight := Destination_Weight old;
          Destination_Mode := Destination_Mode old |},
       Json.Decoded)
  | _ => (old, Json.Saved (Json.UnmarshalTypeError v "ipvs.Destination"))
  end.

Definition service_entity : Json.Entity Service :=
  {| Json.zero := {| Service_Id := ""; Service_Host := ""; Service_Port := 0;
                     Service_Protocol := ""; Service_Scheduler := "";
                     Service_Destinations := [] |};
     Json.type_name := "ipvs.Service";
     Json.Marshal := marshal_service;
     Json.decodeInto := decode_service |}.

Definition destination_entity : Json.Entity Destination :=
  {| Json.zero := {| Destination_Id := ""; Destination_ServiceId := "";
                     Destination_Host := ""; Destination_Port := 0;
                     Destination_Weight := 0; Destination_Mode := "" |};
     Json.type_name := "ipvs.Destination";
     Json.Marshal := marshal_destination;
     Json.decodeInto := decode_destination |}.

Definition types : Ipvs.Types :=
  {| Ipvs.Service := Service;
     Ipvs.Destination := Destination;
     Ipvs.ServiceId := Destination_ServiceId;
     Ipvs.Service_json := service_entity;
     Ipvs.Destination_json := destination_entity |}.

(** A server that answers every request with [resp], behind a [net/url]
    that accepts every address. *)
Definition server (resp : Http.Response) : Network :=
  {| url_Parse := fun _ => None;
     exchange := fun _ _ => inr resp |}.

Definition response (status : Z) (location : option string) (body : string)
  : Http.Response :=
  {| Http.StatusCode := status;
     Http.Header :=
       match location with
       | Some l => {[ "Location" := [l] ]}
       | None => ∅
       end;
     Http.Body := {| Http.content := body; Http.read_error := None |} |}.

Definition client : Api.Client := Api.NewClient "http://host/".

(** The body of an error response in JSON: an object with the member
    [error]. *)
Definition error_body : string :=
  object [member "error" (quoted "no such service")].

(** The four bytes of an IPv4 address. *)
Definition ipv4 (a b c d : Z) : string :=
  string_of_list_ascii (map Utf8.byte_of [a; b; c; d]).

Definition web : Service :=
  {| Service_Id := ""; Service_Host := ipv4 10 0 0 1; Service_Port := 80;
     Service_Protocol := "tcp"; Service_Scheduler := "rr";
     Service_Destinations := [] |}.

(** A service whose address has three bytes: no JSON form. *)
Definition broken_web : Service :=
  {| Service_Id := ""; Service_Host := "abc"; Service_Port := 80;
     Service_Protocol := "tcp"; Service_Scheduler := "rr";
     Service_Destinations := [] |}.

Definition backend : Destination :=
  {| Destination_Id := ""; Destination_ServiceId := "5";
     Destination_Host := ipv4 192 168 0 7; Destination_Port := 8080;
     Destination_Weight := 1; Destination_Mode := "nat" |}.

(** A destination whose address has three bytes: no JSON form. *)
Definition broken_backend : Destination :=
  {| Destination_Id := ""; Destination_ServiceId := "5";
     Destination_Host := "abc"; Destination_Port := 8080;
     Destination_Weight := 1; Destination_Mode := "nat" |}.

(** Responses of a server. *)
Definition found : Http.Response :=
  response 200 None (object [member "Id" (quoted "7")]).

Definition found_service : Service :=
  {| Service_Id := "7"; Service_Host := ""; Service_Port := 0;
     Service_Protocol := ""; Service_Scheduler := "";
     Service_Destinations := [] |}.

Definition listing : Http.Response :=
  response 200 None ("[" +:+ object [member "Id" (quoted "7")] +:+ ", null]").

Definition null_body : Http.Response := response 200 None "null".

Definition no_content : Http.Response := response 204 None "".

Definition not_found : Http.Response := response 404 None "404 page not found".

Definition failed : Http.Response := response 500 None "backend is down".

Definition created_service : Http.Response :=
  response 201 (Some "http://host/services/42") "".

Definition created_destination : Http.Response :=
  response 201 (Some "http://host/services/5/destinations/7") "".

(** A server that creates services and destinations: a POST to the
    collection of services or to the destinations of the service [5] is
    answered with 201 and the address of what was created, anything else
    with 404. *)
Definition creating_server : Network :=
  {| url_Parse := fun _ => None;
     exchange := fun _ req =>
       if String.eqb (Http.Method req) "POST"
          && String.eqb (Http.URL req) "http://host/services"
       then inr created_service
       else if String.eqb (Http.Method req) "POST"
               && String.eqb (Http.URL req) "http://host/services/5/destinations"
       then inr created_destination
       else inr not_found |}.

End Sample.

(** ** Traces and further servers *)

Module Trace.

(** [s] holds no slash. *)
Definition no_slash (s : string) : bool :=
  all_bytes (fun c => negb (Ascii.eqb c slash)) s.

(** What an operation does with the body of the response [resp] once it
    has it: it reads the body or not, and then closes it. *)
Definition after_response (resp : Http.Response) (read : bool) : list event :=
  (if read then [BodyRead (Http.Body resp)] else [])
  ++ [BodyClosed (Http.Body resp)].

(** The error that [decode] makes of the error [e] of [json.Unmarshal] on
    the body [data]. *)
Definition wrapped {lib : Library} (data : string) (e : error) : error :=
  fmt_error ("unable to unmarshal body " +:+ Strconv.Quote data
             +:+ ": " +:+ Error e).

(** The request [req] of the client [c] can be built, and the exchange
    ends with the error [e] of the transport. *)
Definition failed_with {net : Network} (c : Api.Client) (req : Http.Request)
  (e : error) : Prop :=
  url_Parse (Http.URL req) = None
  /\ exchange (Api.HttpClient c) req = inl e.

(** The client [c] with [n] more slashes at the end of its address. *)
Definition with_slashes (c : Api.Client) (n : nat) : Api.Client :=
  {| Api.Addr := Api.Addr c +:+ replicate_byte n slash;
     Api.HttpClient := Api.HttpClient c |}.

(** A response whose [Location] header has the one value [location]. *)
Definition located (status : Z) (location : string) (body : Http.ReadCloser)
  : Http.Response :=
  {| Http.StatusCode := status;
     Http.Header := {[ "Location" := [location] ]};
     Http.Body := body |}.

End Trace.

Module Sample2.

(** A server that cannot be reached: every exchange ends with the error of
    the transport. *)
Definition refused : error := lib_error "dial tcp 10.0.0.9:80: connection refused".

Definition unreachable : Network :=
  {| url_Parse := fun _ => None;
     exchange := fun _ _ => inl refused |}.

(** A [net/url] that refuses an address with a control character in it, in
    front of a server that answers 200. *)
Definition control_character : error :=
  lib_error "net/url: invalid control character in URL".

Definition is_control (c : ascii) : bool :=
  (Utf8.byte_val c <? 0x20) || (Utf8.byte_val c =? 0x7F).

Definition strict : Network :=
  {| url_Parse := fun url =>
       if all_bytes (fun c => negb (is_control c)) url then None
       else Some control_character;
     exchange := fun _ _ => inr (Sample.response 200 None "") |}.

(** An identifier with a line feed in it. *)
Definition bad_id : string := String (ascii_of_N 10) "7".

Definition bad_backend : Sample.Destination :=
  {| Sample.Destination_Id := ""; Sample.Destination_ServiceId := bad_id;
     Sample.Destination_Host := Sample.ipv4 192 168 0 7;
     Sample.Destination_Port := 8080;
     Sample.Destination_Weight := 1; Sample.Destination_Mode := "nat" |}.

Definition deleted : Http.Response := Sample.response 200 None "".

(** A server that answers the creation of services only: a POST to the
    collection of services is answered with 201, and every other exchange
    ends with the error of the transport. *)
Definition services_only : Network :=
  {| url_Parse := fun _ => None;
     exchange := fun _ req =>
       if String.eqb (Http.Method req) "POST"
          && String.eqb (Http.URL req) "http://host/services"
       then inr Sample.created_service
       else inl refused |}.

(** A server that knows the service [7] only: a DELETE of that service is
    answered with 200, and every other exchange ends with the error of the
    transport. *)
Definition one_service_only : Network :=
  {| url_Parse := fun _ => None;
     exchange := fun _ req =>
       if String.eqb (Http.Method req) "DELETE"
          && String.eqb (Http.URL req) "http://host/services/7"
       then inr deleted
       else inl refused |}.

(** A body whose reading breaks off with an error after some bytes. *)
Definition broken_off : error := lib_error "unexpected EOF".

Definition truncated : Http.Response :=
  {| Http.StatusCode := 200;
     Http.Header := ∅;
     Http.Body := {| Http.content := "{"; Http.read_error := Some broken_off |} |}.

Definition not_json : Http.Response := Sample.response 200 None "<html>".

Definition null_padded : Http.Response := Sample.response 200 None " null ".

Definition empty_array : Http.Response := Sample.response 200 None "[]".

Definition number_body : Http.Response := Sample.response 200 None "5".

End Sample2.

(** * Properties *)

(** ** Byte strings *)

(** [simpl] unfolds a concatenation once its first argument starts with a
    constructor. *)
Arguments String.append !s1 s2 : simpl nomatch.

Lemma append_nil_r (s : string) : s +:+ "" = s.
Proof. induction s as [|c s IH]; simpl; [reflexivity | now rewrite IH]. Qed.

Lemma append_assoc (s t u : string) : (s +:+ t) +:+ u = s +:+ t +:+ u.
Proof. induction s as [|c s IH]; simpl; [reflexivity | now rewrite IH]. Qed.

Lemma Contains_refl (s : string) : Contains s s.
Proof. exists "", "". simpl. now rewrite append_nil_r. Qed.

Lemma Contains_app_l (p s sub : string) : Contains s sub -> Contains (p +:+ s) sub.
Proof.
  intros (pre & post & ->). exists (p +:+ pre), post. now rewrite append_assoc.
Qed.

Lemma Contains_app_r (s q sub : string) : Contains s sub -> Contains (s +:+ q) sub.
Proof.
  intros (pre & post & ->). exists pre, (post +:+ q). now rewrite !append_assoc.
Qed.

Lemma Contains_cons (c : ascii) (s sub : string) :
  Contains s sub -> Contains (String c s) sub.
Proof. intros Hc. now apply (Contains_app_l (String c "")). Qed.

Lemma Contains_empty (s : string) : Contains s "".
Proof. exists "", s. reflexivity. Qed.

Lemma prefix_true (p s : string) :
  String.prefix p s = true <-> exists post, s = p +:+ post.
Proof.
  revert s. induction p as [|a p IH]; intros s; simpl.
  - destruct s; split; eauto.
  - destruct s as [|b s].
    + split; [discriminate | intros [post Hp]; discriminate].
    + simpl. destruct (ascii_dec a b) as [<-|Hne].
      * rewrite IH. split; intros [post Hp]; exists post; congruence.
      * split; [discriminate | intros [post Hp]; congruence].
Qed.

Lemma containsb_true (s sub : string) : containsb s sub = true <-> Contains s sub.
Proof.
  induction s as [|c s IH].
  - cbn [containsb]. rewrite orb_false_r, prefix_true. split.
    + intros [post Hp]. exists "", post. exact Hp.
    + intros (pre & post & Hp). destruct pre; [|discriminate].
      exists post. exact Hp.
  - cbn [containsb]. rewrite orb_true_iff, prefix_true, IH. split.
    + intros [[post Hp] | Hc].
      * exists "", post. exact Hp.
      * now apply Contains_cons.
    + intros (pre & post & Hp). destruct pre as [|a pre].
      * left. exists post. exact Hp.
      * right. exists pre, post. simpl in Hp. congruence.
Qed.

Lemma containsb_false (s sub : string) : containsb s sub = false -> ~ Contains s sub.
Proof. intros Hf Hc. apply containsb_true in Hc. congruence. Qed.

Lemma ends_with_cons (c a : ascii) (s : string) :
  s <> "" -> ends_with c (String a s) = ends_with c s.
Proof. destruct s; [congruence | reflexivity]. Qed.

(** ** [strings.TrimRight], [strings.Join], [strings.Split] *)

Lemma TrimRight_slash (s : string) :
  (exists n, s = Strings.TrimRight s "/" +:+ replicate_byte n slash)
  /\ ends_with slash (Strings.TrimRight s "/") = false.
Proof.
  induction s as [|c s [[n Hn] He]]; simpl.
  - split; [exists 0%nat|]; reflexivity.
  - rewrite orb_false_r.
    destruct (Strings.TrimRight s "/") as [|a t] eqn:Ht; simpl.
    + destruct (Ascii.eqb_spec c "/") as [->|Hc]; simpl.
      * split; [|reflexivity]. exists (S n). simpl. now rewrite Hn at 1.
      * split; [exists n; now rewrite Hn at 1|].
        now apply Ascii.eqb_neq.
    + split; [exists n; now rewrite Hn at 1|].
      exact He.
Qed.

Lemma Join_cons (e : string) (rest : list string) (sep : string) :
  Strings.Join (e :: rest) sep = e +:+ join_after sep rest.
Proof.
  revert e. induction rest as [|x rest IH]; intros e.
  - simpl. now rewrite append_nil_r.
  - change (Strings.Join (e :: x :: rest) sep)
      with (e +:+ sep +:+ Strings.Join (x :: rest) sep).
    now rewrite IH.
Qed.

Lemma Split_nonempty (s : string) (sep : ascii) : Strings.Split s sep <> [].
Proof.
  destruct s as [|c s]; simpl; [discriminate|].
  destruct (Ascii.eqb c sep); [discriminate|].
  destruct (Strings.Split s sep); discriminate.
Qed.

Lemma nth_last {A : Type} (l : list A) (d : A) :
  nth (length l - 1) l d = List.last l d.
Proof.
  induction l as [|x l IH]; [reflexivity|].
  destruct l as [|y l]; [reflexivity|].
  change (List.last (x :: y :: l) d) with (List.last (y :: l) d).
  rewrite <- IH. simpl. now rewrite Nat.sub_0_r.
Qed.

(** The last piece holds no separator, and the string is that piece alone
    or ends with a separator followed by that piece. *)
Lemma Split_last (s : string) (sep : ascii) :
  let id := List.last (Strings.Split s sep) "" in
  all_bytes (fun c => negb (Ascii.eqb c sep)) id = true
  /\ ((Strings.Split s sep = [id] /\ s = id)
      \/ (exists pre, s = pre +:+ String sep id
                      /\ (2 <= length (Strings.Split s sep))%nat)).
Proof.
  induction s as [|c s IH]; simpl.
  - split; [reflexivity | left; split; reflexivity].
  - destruct IH as [Hno Hs].
    pose proof (Split_nonempty s sep) as Hne.
    destruct (Strings.Split s sep) as [|p more] eqn:Hp; [congruence|].
    destruct (Ascii.eqb_spec c sep) as [->|Hc].
    + split; [exact Hno|]. right.
      destruct Hs as [[_ Hs] | (pre & Hs & _)].
      * exists "". split; [simpl; now rewrite Hs at 1 | simpl; lia].
      * exists (String sep pre). split; [simpl; now rewrite Hs at 1 | simpl; lia].
    + apply Ascii.eqb_neq in Hc.
      destruct Hs as [[Hone Hs] | (pre & Hs & Hlen)].
      * injection Hone as Hp1 Hmore. subst more. simpl in *. rewrite Hc. simpl.
        split; [exact Hno|]. left. split; [reflexivity | now rewrite Hs at 1].
      * destruct more as [|q more]; [simpl in Hlen; lia|].
        split; [exact Hno|]. right. exists (String c pre).
        split; [simpl; now rewrite Hs at 1 | simpl; lia].
Qed.

(** ** [strconv.Quote] *)

Section Quote.

Context {lib : Library}.

(** A plain byte is a code point of its own, and is written as it is. *)
Lemma plain_byte (c : ascii) (s : string) :
  Spec.plain c = true ->
  Utf8.DecodeRuneInString (String c s) = (Utf8.byte_val c, 1%nat)
  /\ (Utf8.byte_val c =? Utf8.RuneError) = false
  /\ Strconv.appendEscapedRune (Utf8.byte_val c) = String c "".
Proof.
  destruct c as [b0 b1 b2 b3 b4 b5 b6 b7].
  destruct b0, b1, b2, b3, b4, b5, b6, b7; intros Hp;
    solve [discriminate Hp | repeat split].
Qed.

Lemma quote_loop_plain (s : string) :
  all_bytes Spec.plain s = true -> Strconv.quote_loop 0 s = s.
Proof.
  induction s as [|c s IH]; [reflexivity|].
  cbn [all_bytes]. intros [Hc Hs]%andb_true_iff.
  destruct (plain_byte c s Hc) as (Hd & Hr & Ha).
  cbn [Strconv.quote_loop]. rewrite Hd, Hr, Ha, andb_false_r.
  cbn [Nat.sub]. rewrite (IH Hs). reflexivity.
Qed.

Lemma Quote_plain (s : string) :
  all_bytes Spec.plain s = true ->
  Strconv.Quote s = String dquote (s +:+ String dquote "").
Proof. intros Hs. unfold Strconv.Quote. now rewrite quote_loop_plain. Qed.

End Quote.

(** ** The pure helpers of [client.go] *)

(** The index [len(parts)-1] of [idFromLocation] is within the slice: the
    Go expression cannot fail. *)
Lemma idFromLocation_index_in_range (resp : Http.Response) :
  let parts := Strings.Split (Http.Header_Get (Http.Header resp) "Location") slash in
  (length parts - 1 < length parts)%nat.
Proof.
  intros parts. pose proof (Split_nonempty (Http.Header_Get (Http.Header resp) "Location") slash) as Hne.
  fold parts in Hne. destruct parts; [congruence | simpl; lia].
Qed.

(** The identifier is the last piece of the header: it holds no slash, and
    the header is the identifier alone or ends with a slash and then the
    identifier. *)
Lemma idFromLocation_segment (resp : Http.Response) :
  let loc := Http.Header_Get (Http.Header resp) "Location" in
  let id := Api.idFromLocation resp in
  id = List.last (Strings.Split loc slash) ""
  /\ all_bytes (fun c => negb (Ascii.eqb c slash)) id = true
  /\ (loc = id \/ exists pre, loc = pre +:+ "/" +:+ id).
Proof.
  intros loc id.
  assert (Hid : id = List.last (Strings.Split loc slash) "")
    by (unfold id, Api.idFromLocation; apply nth_last).
  destruct (Split_last loc slash) as [Hno Hs]. cbv zeta in Hno, Hs.
  rewrite <- Hid in Hno, Hs. repeat split; [exact Hid | exact Hno |].
  destruct Hs as [[_ Hs] | (pre & Hs & _)]; [now left | right; now exists pre].
Qed.

(** C5: for every response, the extracted identifier is the last element of
    the [Location] header split on the slash, taken at an index that is
    always in range; it holds no slash, and the header is the identifier
    alone or ends with a slash followed by the identifier.  The header
    [http://host/services/42] gives [42], and a header that is absent or
    empty gives the empty identifier. *)
Theorem idFromLocation_last_element (resp : Http.Response) :
  let loc := Http.Header_Get (Http.Header resp) "Location" in
  let parts := Strings.Split loc slash in
  let id := Api.idFromLocation resp in
  (length parts - 1 < length parts)%nat
  /\ id = List.last parts ""
  /\ all_bytes (fun c => negb (Ascii.eqb c slash)) id = true
  /\ (loc = id \/ exists pre, loc = pre +:+ "/" +:+ id)
  /\ (loc = "http://host/services/42" -> id = "42")
  /\ (Http.Header resp !! "Location" = None -> id = "")
  /\ (Http.Header resp !! "Location" = Some [] -> id = "")
  /\ (loc = "" -> id = "").
Proof.
  intros loc parts id.
  destruct (idFromLocation_segment resp) as (Hlast & Hno & Hs).
  split; [apply idFromLocation_index_in_range|].
  repeat split; try assumption; unfold id, Api.idFromLocation.
  - fold loc. now intros ->.
  - unfold Http.Header_Get. now intros ->.
  - unfold Http.Header_Get. now intros ->.
  - fold loc. now intros ->.
Qed.

(** C5, on concrete responses: [42] and [7] from the headers of the
    specification, the empty identifier without a header. *)
Lemma idFromLocation_last_element_witness :
  Api.idFromLocation (Sample.response 201 (Some "http://host/services/42") "") = "42"
  /\ Api.idFromLocation (Sample.response 201 None "") = "".
Proof.
  split.
  - apply (idFromLocation_last_element
             (Sample.response 201 (Some "http://host/services/42") "")).
    reflexivity.
  - apply (idFromLocation_last_element (Sample.response 201 None "")).
    reflexivity.
Defined.

Example idFromLocation_destination :
  Api.idFromLocation
    (Sample.response 201 (Some "http://host/services/5/destinations/7") "") = "7".
Proof. reflexivity. Qed.

Example idFromLocation_trailing_slash :
  Api.idFromLocation (Sample.response 201 (Some "http://host/services/42/") "") = "".
Proof. reflexivity. Qed.

(** C6: the built path is the base address without its trailing slashes,
    joined with the segments by a slash: the base address is the trimmed
    base followed by slashes only, the trimmed base does not end with a
    slash, and the path is the trimmed base followed by every segment with a
    slash before it.  The base [http://host/] with the segments [services],
    [5], [destinations] gives [http://host/services/5/destinations]. *)
Theorem path_joins_trimmed_base (c : Api.Client) (paths : list string) :
  let base := Strings.TrimRight (Api.Addr c) "/" in
  (exists n, Api.Addr c = base +:+ replicate_byte n slash)
  /\ ends_with slash base = false
  /\ Api.path c paths = Strings.Join (base :: paths) "/"
  /\ Api.path c paths = base +:+ join_after "/" paths
  /\ Api.path (Api.NewClient "http://host/") ["services"; "5"; "destinations"]
     = "http://host/services/5/destinations".
Proof.
  intros base. destruct (TrimRight_slash (Api.Addr c)) as [Hn He].
  repeat split; try assumption.
  unfold Api.path. apply Join_cons.
Qed.

Example path_many_slashes :
  Api.path (Api.NewClient "http://host///") ["services"] = "http://host/services".
Proof. reflexivity. Qed.

(** C9: the client that [NewClient] builds dials with a timeout of 30
    seconds and a keep-alive interval of 30 seconds, allows 30 seconds for
    the TLS handshake and 60 seconds for a whole request, and has
    keep-alives disabled and a negative bound on idle connections per host,
    so that its transport keeps no idle connection. *)
Theorem NewClient_configuration (addr : string) :
  let c := Api.NewClient addr in
  let t := Http.Client_Transport (Api.HttpClient c) in
  Api.Addr c = addr
  /\ Http.Dialer_Timeout (Http.Dial t) = 30 * Time.Second
  /\ Http.Dialer_KeepAlive (Http.Dial t) = 30 * Time.Second
  /\ Http.TLSHandshakeTimeout t = 30 * Time.Second
  /\ Http.Client_Timeout (Api.HttpClient c) = 60 * Time.Second
  /\ Http.DisableKeepAlives t = true
  /\ Http.MaxIdleConnsPerHost t = -1
  /\ Http.keeps_no_idle_conn t = true.
Proof. repeat split. Qed.

(** ** Running the operations *)

Ltac unfold_M :=
  unfold defer, HttpClient.Do, HttpClient.ReadAll, HttpClient.Close, emit,
    mbind, M_bind, mret, M_ret in *.

Section Runs.

Context {lib : Library} {net : Network} {ipvs : Ipvs.Types}.

Lemma formatError_run (resp : Http.Response) (log : list event) :
  Api.formatError resp log
  = (Spec.generic_error resp, log ++ [BodyRead (Http.Body resp)]).
Proof. reflexivity. Qed.

Lemma generic_error_message (resp : Http.Response) :
  Error (Spec.generic_error resp)
  = "Request failed. Status Code: " +:+ Strconv.Itoa (Http.StatusCode resp)
    +:+ ". Body: " +:+ Strconv.Quote (Http.content (Http.Body resp)).
Proof. reflexivity. Qed.

Lemma generic_error_not_sentinel (resp : Http.Response) :
  Spec.generic_error resp <> ErrNoSuchService.
Proof. discriminate. Qed.

Lemma decode_run {T : Type} {target : Json.Target T}
  (resp : Http.Response) (obj : T) (log : list event) :
  Api.decode (Http.Body resp) obj log
  = (Spec.decoded resp obj, log ++ [BodyRead (Http.Body resp)]).
Proof.
  unfold Spec.decoded, Api.decode. unfold_M. cbn.
  destruct (Http.read_error (Http.Body resp)); [reflexivity|].
  destruct (Json.Unmarshal _ _) as [o [e|]]; reflexivity.
Qed.

(** A body that is read without error and decoded without error. *)
Lemma decoded_ok {T : Type} {target : Json.Target T}
  (resp : Http.Response) (obj obj' : T) (v : Json.value) :
  Http.read_error (Http.Body resp) = None ->
  Json.parse (Http.content (Http.Body resp)) = Some v ->
  Json.decodeValue v obj = (obj', Json.Decoded) ->
  Spec.decoded resp obj = (obj', None).
Proof.
  intros Hr Hp Hd. unfold Spec.decoded, Api.decode. unfold_M. cbn.
  rewrite Hr. unfold Json.Unmarshal. rewrite Hp, Hd. reflexivity.
Qed.

Lemma Get_run (c : Api.Client) (url : string) (resp : Http.Response)
  (log : list event) :
  Spec.answered c (Spec.get_request url) resp ->
  HttpClient.Get (Api.HttpClient c) url log
  = (inr resp, log ++ [Sent (Api.HttpClient c) (Spec.get_request url)]).
Proof.
  intros [Hu He]. unfold HttpClient.Get, HttpClient.NewRequest.
  cbn in Hu. rewrite Hu. unfold_M. cbn.
  fold (Spec.get_request url). now rewrite He.
Qed.

Lemma Post_run (c : Api.Client) (url body : string) (resp : Http.Response)
  (log : list event) :
  Spec.answered c (Spec.post_request url body) resp ->
  HttpClient.Post (Api.HttpClient c) url "application/json" body log
  = (inr resp, log ++ [Sent (Api.HttpClient c) (Spec.post_request url body)]).
Proof.
  intros [Hu He]. unfold HttpClient.Post, HttpClient.NewRequest.
  cbn in Hu. rewrite Hu. unfold_M. cbn. unfold Http.Header_Set.
  rewrite insert_empty. fold (Spec.post_request url body). now rewrite He.
Qed.

Lemma Delete_run (c : Api.Client) (url : string) (resp : Http.Response)
  (log : list event) :
  Spec.answered c (Spec.delete_request url) resp ->
  HttpClient.NewRequest "DELETE" url None = inr (Spec.delete_request url)
  /\ HttpClient.Do (Api.HttpClient c) (Spec.delete_request url) log
     = (inr resp, log ++ [Sent (Api.HttpClient c) (Spec.delete_request url)]).
Proof.
  intros [Hu He]. unfold HttpClient.NewRequest.
  cbn in Hu. rewrite Hu. unfold_M. cbn. now rewrite He.
Qed.

End Runs.

(** ** The generic error *)

(** C7 as stated fails: the body of a response with status
    500 that is a JSON object with a string member does not occur in the
    message, which has the body with its double quotes escaped. *)
Lemma formatError_body_not_verbatim :
  ~ (forall (L : Library) (resp : Http.Response) (log : list event),
        Contains (Error (fst (Api.formatError resp log)))
                 (Http.content (Http.Body resp))).
Proof.
  intros Hall.
  specialize (Hall Sample.library (Sample.response 500 None Sample.error_body) []).
  revert Hall. apply containsb_false. vm_compute. reflexivity.
Qed.

(** C7, amended: the message of the generic error is the fixed text with
    the status code in decimal and the body that was read as a Go
    double-quoted string literal ([strconv.Quote]), so it contains both of
    these; a body of plain bytes only (printable ASCII other than the double
    quote and the backslash), the empty body among them, stands in the
    message as it is, between double quotes. *)
Theorem formatError_message {lib : Library} (resp : Http.Response) (log : list event) :
  let msg := Error (fst (Api.formatError resp log)) in
  let body := Http.content (Http.Body resp) in
  msg = "Request failed. Status Code: " +:+ Strconv.Itoa (Http.StatusCode resp)
        +:+ ". Body: " +:+ Strconv.Quote body
  /\ Contains msg (Strconv.Itoa (Http.StatusCode resp))
  /\ Contains msg (Strconv.Quote body)
  /\ (all_bytes Spec.plain body = true ->
      Strconv.Quote body = String dquote (body +:+ String dquote "")
      /\ Contains msg body).
Proof.
  intros msg body.
  assert (Hmsg : msg = "Request failed. Status Code: "
                       +:+ Strconv.Itoa (Http.StatusCode resp)
                       +:+ ". Body: " +:+ Strconv.Quote body) by reflexivity.
  split; [exact Hmsg|]. rewrite Hmsg. split; [|split].
  - apply Contains_app_l, Contains_app_r, Contains_refl.
  - do 3 apply Contains_app_l. apply Contains_refl.
  - intros Hp. split; [now apply Quote_plain|].
    do 3 apply Contains_app_l. rewrite (Quote_plain body Hp).
    apply Contains_cons, Contains_app_r, Contains_refl.
Qed.

(** C7 amended, on concrete responses: a body that is not JSON and the
    empty body are found in the message as they are. *)
Lemma formatError_message_witness :
  Contains (Error (fst (Api.formatError (lib := Sample.library)
                          (Sample.response 503 None "backend is down") [])))
           "backend is down"
  /\ Error (fst (Api.formatError (lib := Sample.library)
                   (Sample.response 500 None "") []))
     = "Request failed. Status Code: 500. Body: " +:+ String dquote (String dquote "").
Proof.
  split.
  - apply (formatError_message (lib := Sample.library)
             (Sample.response 503 None "backend is down") []).
    reflexivity.
  - apply (formatError_message (lib := Sample.library)
             (Sample.response 500 None "") []).
Defined.

(** ** The operations *)

Section Operations.

Context {lib : Library} {net : Network} {ipvs : Ipvs.Types}.

Implicit Types (c : Api.Client) (resp : Http.Response) (log : list event).

(** The whole run of [GetService] on an answered request. *)
Lemma GetService_run c (id : string) resp log :
  let req := Spec.get_request (Api.path c ["services"; id]) in
  Spec.answered c req resp ->
  Api.GetService c id log
  = if Http.StatusCode resp =? 200 then
      (Spec.decoded resp None,
       log ++ [Sent (Api.HttpClient c) req; BodyRead (Http.Body resp);
               BodyClosed (Http.Body resp)])
    else if Http.StatusCode resp =? 404 then
      ((None, Some ErrNoSuchService),
       log ++ [Sent (Api.HttpClient c) req; BodyClosed (Http.Body resp)])
    else
      ((None, Some (Spec.generic_error resp)),
       log ++ [Sent (Api.HttpClient c) req; BodyRead (Http.Body resp);
               BodyClosed (Http.Body resp)]).
Proof.
  intros req Ha. unfold Api.GetService.
  unfold mbind at 1. unfold M_bind at 1. rewrite (Get_run _ _ _ _ Ha).
  fold req. unfold Http.StatusOK, Http.StatusNotFound.
  destruct (Http.StatusCode resp =? 200); [|destruct (Http.StatusCode resp =? 404)].
  - unfold defer. unfold mbind at 1. unfold M_bind at 1.
    unfold mbind at 1. unfold M_bind at 1. rewrite decode_run.
    destruct (Spec.decoded resp None) as [svc err]. unfold_M. cbn.
    now rewrite <- !List.app_assoc.
  - unfold_M. cbn. now rewrite <- !List.app_assoc.
  - unfold defer. unfold mbind at 1. unfold M_bind at 1.
    unfold mbind at 1. unfold M_bind at 1. rewrite formatError_run.
    unfold_M. cbn. now rewrite <- !List.app_assoc.
Qed.

(** C1: when the request for one service is answered, a response with
    status 200 gives what decoding its body gives, the decoded service and
    no error when the body holds a JSON value other than [null] that decodes
    without error; a response with status 404 gives no service and the
    sentinel [ErrNoSuchService]; a response with any other status gives no
    service and the generic formatted error. *)
Theorem GetService_by_status c (id : string) resp log :
  Spec.answered c (Spec.get_request (Api.path c ["services"; id])) resp ->
  let out := fst (Api.GetService c id log) in
  (Http.StatusCode resp = 200 ->
     out = Spec.decoded resp None
     /\ forall (v : Json.value) (svc : Ipvs.Service),
          Http.read_error (Http.Body resp) = None ->
          Json.parse (Http.content (Http.Body resp)) = Some v ->
          v <> Json.Null ->
          Json.decodeInto v Json.zero = (svc, Json.Decoded) ->
          out = (Some svc, None))
  /\ (Http.StatusCode resp = 404 -> out = (None, Some ErrNoSuchService))
  /\ (Http.StatusCode resp <> 200 -> Http.StatusCode resp <> 404 ->
      out = (None, Some (Spec.generic_error resp))).
Proof.
  intros Ha out. subst out. rewrite (GetService_run _ _ _ _ Ha).
  split; [|split].
  - intros ->. cbn. split; [reflexivity|].
    intros v svc Hr Hp Hv Hd. apply (decoded_ok resp None (Some svc) v Hr Hp).
    cbn. destruct v; try congruence; cbn; now rewrite Hd.
  - now intros ->.
  - intros H200 H404.
    destruct (Z.eqb_spec (Http.StatusCode resp) 200); [contradiction|].
    destruct (Z.eqb_spec (Http.StatusCode resp) 404); [contradiction|].
    reflexivity.
Qed.

(** C10: a response with status 200 whose body is the JSON text [null]
    makes [GetService] return a nil service and no error. *)
Theorem GetService_null_body c (id : string) resp log :
  Spec.answered c (Spec.get_request (Api.path c ["services"; id])) resp ->
  Http.StatusCode resp = 200 ->
  Http.Body resp = {| Http.content := "null"; Http.read_error := None |} ->
  fst (Api.GetService c id log) = (None, None).
Proof.
  intros Ha Hs Hb. rewrite (GetService_run _ _ _ _ Ha), Hs. cbn.
  apply (decoded_ok resp None None Json.Null); try rewrite Hb; reflexivity.
Qed.

(** The whole run of [GetServices] on an answered request. *)
Lemma GetServices_run c resp log :
  let req := Spec.get_request (Api.path c ["services"]) in
  Spec.answered c req resp ->
  Api.GetServices c log
  = if Http.StatusCode resp =? 200 then
      (Spec.decoded resp None,
       log ++ [Sent (Api.HttpClient c) req; BodyRead (Http.Body resp);
               BodyClosed (Http.Body resp)])
    else if Http.StatusCode resp =? 204 then
      ((Some [], None),
       log ++ [Sent (Api.HttpClient c) req; BodyClosed (Http.Body resp)])
    else
      ((None, Some (Spec.generic_error resp)),
       log ++ [Sent (Api.HttpClient c) req; BodyRead (Http.Body resp);
               BodyClosed (Http.Body resp)]).
Proof.
  intros req Ha. unfold Api.GetServices.
  unfold mbind at 1. unfold M_bind at 1. rewrite (Get_run _ _ _ _ Ha).
  fold req. unfold Http.StatusOK, Http.StatusNoContent.
  destruct (Http.StatusCode resp =? 200); [|destruct (Http.StatusCode resp =? 204)].
  - unfold defer. unfold mbind at 1. unfold M_bind at 1.
    unfold mbind at 1. unfold M_bind at 1. rewrite decode_run.
    destruct (Spec.decoded resp None) as [svc err]. unfold_M. cbn.
    now rewrite <- !List.app_assoc.
  - unfold_M. cbn. now rewrite <- !List.app_assoc.
  - unfold defer. unfold mbind at 1. unfold M_bind at 1.
    unfold mbind at 1. unfold M_bind at 1. rewrite formatError_run.
    unfold_M. cbn. now rewrite <- !List.app_assoc.
Qed.

(** C2: when the request for the list is answered, a response with status
    200 gives what decoding its body gives, for a body that holds a JSON
    array whose elements decode without error the slice of the decoded
    elements and no error; a response with status 204 gives the empty slice
    that is not nil and no error, whatever the body, and the body is closed
    without having been read; a response with any other status gives no
    slice and the generic formatted error. *)
Theorem GetServices_by_status c resp log :
  let req := Spec.get_request (Api.path c ["services"]) in
  Spec.answered c req resp ->
  let out := fst (Api.GetServices c log) in
  (Http.StatusCode resp = 200 ->
     out = Spec.decoded resp None
     /\ forall (vs : list Json.value) (xs : list (option Ipvs.Service)),
          Http.read_error (Http.Body resp) = None ->
          Json.parse (Http.content (Http.Body resp)) = Some (Json.Array vs) ->
          Json.decode_elements vs [] = (xs, Json.Decoded) ->
          out = (Some xs, None))
  /\ (Http.StatusCode resp = 204 ->
      Api.GetServices c log
      = ((Some [], None),
         log ++ [Sent (Api.HttpClient c) req; BodyClosed (Http.Body resp)]))
  /\ (Http.StatusCode resp <> 200 -> Http.StatusCode resp <> 204 ->
      out = (None, Some (Spec.generic_error resp))).
Proof.
  intros req Ha out. subst out. rewrite (GetServices_run _ _ _ Ha). fold req.
  split; [|split].
  - intros ->. cbn. split; [reflexivity|].
    intros vs xs Hr Hp Hd. apply (decoded_ok resp None (Some xs) _ Hr Hp).
    cbn. now rewrite Hd.
  - now intros ->.
  - intros H200 H204.
    destruct (Z.eqb_spec (Http.StatusCode resp) 200); [contradiction|].
    destruct (Z.eqb_spec (Http.StatusCode resp) 204); [contradiction|].
    reflexivity.
Qed.

(** The whole run of an operation that posts an entity, after the request
    was answered: [CreateService] and [AddDestination] end alike. *)
Lemma posted_run c (req : Http.Request) resp log :
  defer (HttpClient.Close (Http.Body resp))
    (if negb (Http.StatusCode resp =? Http.StatusCreated) then
       e ← Api.formatError resp; mret (EmptyString, Some e)
     else mret (Api.idFromLocation resp, None))
    (log ++ [Sent (Api.HttpClient c) req])
  = if Http.StatusCode resp =? 201 then
      ((Api.idFromLocation resp, None),
       log ++ [Sent (Api.HttpClient c) req; BodyClosed (Http.Body resp)])
    else
      (("", Some (Spec.generic_error resp)),
       log ++ [Sent (Api.HttpClient c) req; BodyRead (Http.Body resp);
               BodyClosed (Http.Body resp)]).
Proof.
  unfold Http.StatusCreated. destruct (Http.StatusCode resp =? 201); cbn [negb].
  - unfold_M. cbn. now rewrite <- !List.app_assoc.
  - unfold defer. unfold mbind at 1. unfold M_bind at 1.
    unfold mbind at 1. unfold M_bind at 1. rewrite formatError_run.
    unfold_M. cbn. now rewrite <- !List.app_assoc.
Qed.

Lemma CreateService_run c (svc : Ipvs.Service) (json : string) resp log :
  let req := Spec.post_request (Api.path c ["services"]) json in
  Api.encode svc = inr json ->
  Spec.answered c req resp ->
  Api.CreateService c svc log
  = if Http.StatusCode resp =? 201 then
      ((Api.idFromLocation resp, None),
       log ++ [Sent (Api.HttpClient c) req; BodyClosed (Http.Body resp)])
    else
      (("", Some (Spec.generic_error resp)),
       log ++ [Sent (Api.HttpClient c) req; BodyRead (Http.Body resp);
               BodyClosed (Http.Body resp)]).
Proof.
  intros req He Ha. unfold Api.CreateService. rewrite He.
  unfold mbind at 1. unfold M_bind at 1. rewrite (Post_run _ _ _ _ _ Ha).
  apply posted_run.
Qed.

Lemma AddDestination_run c (dst : Ipvs.Destination) (json : string) resp log :
  let req :=
    Spec.post_request (Api.path c ["services"; Ipvs.ServiceId dst; "destinations"]) json in
  Api.encode dst = inr json ->
  Spec.answered c req resp ->
  Api.AddDestination c dst log
  = if Http.StatusCode resp =? 201 then
      ((Api.idFromLocation resp, None),
       log ++ [Sent (Api.HttpClient c) req; BodyClosed (Http.Body resp)])
    else
      (("", Some (Spec.generic_error resp)),
       log ++ [Sent (Api.HttpClient c) req; BodyRead (Http.Body resp);
               BodyClosed (Http.Body resp)]).
Proof.
  intros req He Ha. unfold Api.AddDestination. rewrite He.
  unfold mbind at 1. unfold M_bind at 1. rewrite (Post_run _ _ _ _ _ Ha).
  apply posted_run.
Qed.

(** The whole run of an operation that deletes, after the request was
    answered: [DeleteService] and [DeleteDestination] end alike. *)
Lemma deleted_run c (req : Http.Request) resp log :
  defer (HttpClient.Close (Http.Body resp))
    (if negb (Http.StatusCode resp =? Http.StatusOK) then
       e ← Api.formatError resp; mret (Some e)
     else mret None)
    (log ++ [Sent (Api.HttpClient c) req])
  = if Http.StatusCode resp =? 200 then
      (None, log ++ [Sent (Api.HttpClient c) req; BodyClosed (Http.Body resp)])
    else
      (Some (Spec.generic_error resp),
       log ++ [Sent (Api.HttpClient c) req; BodyRead (Http.Body resp);
               BodyClosed (Http.Body resp)]).
Proof.
  unfold Http.StatusOK. destruct (Http.StatusCode resp =? 200); cbn [negb].
  - unfold_M. cbn. now rewrite <- !List.app_assoc.
  - unfold defer. unfold mbind at 1. unfold M_bind at 1.
    unfold mbind at 1. unfold M_bind at 1. rewrite formatError_run.
    unfold_M. cbn. now rewrite <- !List.app_assoc.
Qed.

Lemma DeleteService_run c (id : string) resp log :
  let req := Spec.delete_request (Api.path c ["services"; id]) in
  Spec.answered c req resp ->
  Api.DeleteService c id log
  = if Http.StatusCode resp =? 200 then
      (None, log ++ [Sent (Api.HttpClient c) req; BodyClosed (Http.Body resp)])
    else
      (Some (Spec.generic_error resp),
       log ++ [Sent (Api.HttpClient c) req; BodyRead (Http.Body resp);
               BodyClosed (Http.Body resp)]).
Proof.
  intros req Ha. unfold Api.DeleteService.
  destruct (Delete_run _ _ _ log Ha) as [Hn Hd]. rewrite Hn.
  unfold mbind at 1. unfold M_bind at 1. rewrite Hd.
  apply deleted_run.
Qed.

Lemma DeleteDestination_run c (serviceId destinationId : string) resp log :
  let req :=
    Spec.delete_request
      (Api.path c ["services"; serviceId; "destinations"; destinationId]) in
  Spec.answered c req resp ->
  Api.DeleteDestination c serviceId destinationId log
  = if Http.StatusCode resp =? 200 then
      (None, log ++ [Sent (Api.HttpClient c) req; BodyClosed (Http.Body resp)])
    else
      (Some (Spec.generic_error resp),
       log ++ [Sent (Api.HttpClient c) req; BodyRead (Http.Body resp);
               BodyClosed (Http.Body resp)]).
Proof.
  intros req Ha. unfold Api.DeleteDestination.
  destruct (Delete_run _ _ _ log Ha) as [Hn Hd]. rewrite Hn.
  unfold mbind at 1. unfold M_bind at 1. rewrite Hd.
  apply deleted_run.
Qed.

Lemma created_outcome c (req : Http.Request) resp log :
  Spec.created
    (fst (if Http.StatusCode resp =? 201 then
            ((Api.idFromLocation resp, None),
             log ++ [Sent (Api.HttpClient c) req; BodyClosed (Http.Body resp)])
          else
            (("", Some (Spec.generic_error resp)),
             log ++ [Sent (Api.HttpClient c) req; BodyRead (Http.Body resp);
                     BodyClosed (Http.Body resp)])))
    resp.
Proof.
  unfold Spec.created.
  destruct (Z.eqb_spec (Http.StatusCode resp) 201) as [He|Hne]; cbn [fst snd].
  - repeat split; try tauto.
    intros _. f_equal. apply idFromLocation_segment.
  - repeat split; try tauto. discriminate.
Qed.

(** C3: when the service has a JSON form and the request that posts it is
    answered, [CreateService] succeeds exactly when the status is 201 and
    then returns the last piece of the [Location] header split on the
    slash; for any other status it returns the empty identifier and the
    generic formatted error.  [AddDestination] does the same for a
    destination, on its own request. *)
Theorem create_by_status c log :
  (forall (svc : Ipvs.Service) (json : string) resp,
      Api.encode svc = inr json ->
      Spec.answered c (Spec.post_request (Api.path c ["services"]) json) resp ->
      Spec.created (fst (Api.CreateService c svc log)) resp)
  /\ (forall (dst : Ipvs.Destination) (json : string) resp,
        Api.encode dst = inr json ->
        Spec.answered c
          (Spec.post_request
             (Api.path c ["services"; Ipvs.ServiceId dst; "destinations"]) json)
          resp ->
        Spec.created (fst (Api.AddDestination c dst log)) resp).
Proof.
  split.
  - intros svc json resp He Ha.
    rewrite (CreateService_run _ _ _ _ _ He Ha). apply created_outcome.
  - intros dst json resp He Ha.
    rewrite (AddDestination_run _ _ _ _ _ He Ha). apply created_outcome.
Qed.

(** C8: when [json.Marshal] fails on the entity, [CreateService] and
    [AddDestination] return the empty identifier and the error of
    [json.Marshal], and the log of effects is as before: no request was
    sent. *)
Theorem marshal_failure_sends_nothing c log :
  (forall (svc : Ipvs.Service) (e : error),
      Json.Marshal svc = inl e ->
      Api.CreateService c svc log = (("", Some e), log))
  /\ (forall (dst : Ipvs.Destination) (e : error),
        Json.Marshal dst = inl e ->
        Api.AddDestination c dst log = (("", Some e), log)).
Proof.
  split.
  - intros svc e He. unfold Api.CreateService, Api.encode. now rewrite He.
  - intros dst e He. unfold Api.AddDestination, Api.encode. now rewrite He.
Qed.

End Operations.

(** ** The operations on concrete servers *)

Section Witnesses.

#[local] Existing Instance Sample.library.
#[local] Existing Instance Sample.types.

(** C1, on three servers: one that knows the service, one that does not,
    one that fails. *)
Lemma GetService_by_status_witness :
  fst (Api.GetService (net := Sample.server Sample.found) Sample.client "7" [])
  = (Some Sample.found_service, None)
  /\ fst (Api.GetService (net := Sample.server Sample.not_found) Sample.client "7" [])
     = (None, Some ErrNoSuchService)
  /\ fst (Api.GetService (net := Sample.server Sample.failed) Sample.client "7" [])
     = (None, Some (Spec.generic_error Sample.failed)).
Proof.
  split; [|split].
  - destruct (GetService_by_status (net := Sample.server Sample.found)
                Sample.client "7" Sample.found []) as (H200 & _ & _).
    + split; reflexivity.
    + destruct (H200 eq_refl) as [_ Hok].
      apply (Hok (Json.Object [("Id", Json.Str "7")]) Sample.found_service);
        [reflexivity | reflexivity | discriminate | reflexivity].
  - destruct (GetService_by_status (net := Sample.server Sample.not_found)
                Sample.client "7" Sample.not_found []) as (_ & H404 & _).
    + split; reflexivity.
    + apply H404. reflexivity.
  - destruct (GetService_by_status (net := Sample.server Sample.failed)
                Sample.client "7" Sample.failed []) as (_ & _ & Hother).
    + split; reflexivity.
    + apply Hother; discriminate.
Defined.

(** C10, on a server that answers 200 with the body [null]. *)
Lemma GetService_null_body_witness :
  fst (Api.GetService (net := Sample.server Sample.null_body) Sample.client "7" [])
  = (None, None).
Proof.
  apply (GetService_null_body (net := Sample.server Sample.null_body)
           Sample.client "7" Sample.null_body []).
  - split; reflexivity.
  - reflexivity.
  - reflexivity.
Defined.

(** C2, on three servers: one that lists a service and a nil entry, one
    that has no content, one that fails. *)
Lemma GetServices_by_status_witness :
  fst (Api.GetServices (net := Sample.server Sample.listing) Sample.client [])
  = (Some [Some Sample.found_service; None], None)
  /\ Api.GetServices (net := Sample.server Sample.no_content) Sample.client []
     = ((Some [], None),
        [Sent (Api.HttpClient Sample.client) (Spec.get_request "http://host/services");
         BodyClosed (Http.Body Sample.no_content)])
  /\ fst (Api.GetServices (net := Sample.server Sample.failed) Sample.client [])
     = (None, Some (Spec.generic_error Sample.failed)).
Proof.
  split; [|split].
  - destruct (GetServices_by_status (net := Sample.server Sample.listing)
                Sample.client Sample.listing []) as (H200 & _ & _).
    + split; reflexivity.
    + destruct (H200 eq_refl) as [_ Hok].
      apply (Hok [Json.Object [("Id", Json.Str "7")]; Json.Null]); reflexivity.
  - destruct (GetServices_by_status (net := Sample.server Sample.no_content)
                Sample.client Sample.no_content []) as (_ & H204 & _).
    + split; reflexivity.
    + apply H204. reflexivity.
  - destruct (GetServices_by_status (net := Sample.server Sample.failed)
                Sample.client Sample.failed []) as (_ & _ & Hother).
    + split; reflexivity.
    + apply Hother; discriminate.
Defined.

(** C3, on a server that creates: the service gets the identifier [42] and
    the destination the identifier [7]; and on a server that answers the
    creation of services only, the service still gets its identifier. *)
Lemma create_by_status_witness :
  fst (Api.CreateService (ipvs := Sample.types) (net := Sample.creating_server)
         Sample.client Sample.web [])
  = ("42", None)
  /\ fst (Api.AddDestination (ipvs := Sample.types) (net := Sample.creating_server)
            Sample.client Sample.backend [])
     = ("7", None)
  /\ fst (Api.CreateService (ipvs := Sample.types) (net := Sample2.services_only)
            Sample.client Sample.web [])
     = ("42", None).
Proof.
  destruct (create_by_status (ipvs := Sample.types) (net := Sample.creating_server)
              Sample.client []) as [Hs Hd].
  destruct (create_by_status (ipvs := Sample.types) (net := Sample2.services_only)
              Sample.client []) as [Hs' _].
  split; [|split].
  - apply (Hs Sample.web
             (default "" (match Sample.marshal_service Sample.web with
                          | inr j => Some j | inl _ => None end))
             Sample.created_service);
      [reflexivity | split; reflexivity | reflexivity].
  - apply (Hd Sample.backend
             (default "" (match Sample.marshal_destination Sample.backend with
                          | inr j => Some j | inl _ => None end))
             Sample.created_destination);
      [reflexivity | split; reflexivity | reflexivity].
  - apply (Hs' Sample.web
             (default "" (match Sample.marshal_service Sample.web with
                          | inr j => Some j | inl _ => None end))
             Sample.created_service);
      [reflexivity | split; reflexivity | reflexivity].
Defined.

(** C3, on a server that answers 404: no identifier, the generic error. *)
Example CreateService_not_created :
  fst (Api.CreateService (ipvs := Sample.types) (net := Sample.server Sample.not_found) Sample.client
         Sample.web [])
  = ("", Some (Spec.generic_error Sample.not_found)).
Proof. reflexivity. Qed.

(** C8, on a service and a destination whose address cannot be written:
    the error of the encoder comes back and nothing was sent. *)
Lemma marshal_failure_sends_nothing_witness :
  Api.CreateService (ipvs := Sample.types) (net := Sample.creating_server) Sample.client Sample.broken_web []
  = (("", Some (lib_error "invalid IP address")), [])
  /\ Api.AddDestination (net := Sample.creating_server) Sample.client
       Sample.broken_backend []
     = (("", Some (lib_error "invalid IP address")), []).
Proof.
  destruct (marshal_failure_sends_nothing (ipvs := Sample.types) (net := Sample.creating_server)
              Sample.client []) as [Hs Hd].
  split; [apply Hs | apply Hd]; reflexivity.
Defined.

End Witnesses.

(** ** The library models on concrete inputs *)

Example TrimRight_slashes : Strings.TrimRight "http://host///" "/" = "http://host".
Proof. reflexivity. Qed.

Example TrimRight_only_slashes : Strings.TrimRight "///" "/" = "".
Proof. reflexivity. Qed.

Example TrimRight_inner_slash : Strings.TrimRight "a/b" "/" = "a/b".
Proof. reflexivity. Qed.

Example Split_location :
  Strings.Split "http://host/services/42" slash
  = ["http:"; ""; "host"; "services"; "42"].
Proof. reflexivity. Qed.

Example Split_empty : Strings.Split "" slash = [""].
Proof. reflexivity. Qed.

Example Join_three : Strings.Join ["a"; "b"; "c"] "/" = "a/b/c".
Proof. reflexivity. Qed.

Example Itoa_status : Strconv.Itoa 404 = "404".
Proof. reflexivity. Qed.

(** A line feed is written as a backslash and [n], a byte that is not
    UTF-8 in hexadecimal. *)
Example Quote_escapes :
  Strconv.Quote (lib := Sample.library)
    ("a" +:+ String (ascii_of_N 10) (String (ascii_of_N 200) "b"))
  = Sample.quoted "a\n\xc8b".
Proof. reflexivity. Qed.

Example Quote_error_body :
  Strconv.Quote (lib := Sample.library) Sample.error_body
  = Sample.quoted ("{\" +:+ Sample.quoted "error\" +:+ ":\"
                   +:+ Sample.quoted "no such service\" +:+ "}").
Proof. reflexivity. Qed.

Example parse_null : Json.parse "null" = Some Json.Null.
Proof. reflexivity. Qed.

Example parse_null_spaces : Json.parse " null " = Some Json.Null.
Proof. reflexivity. Qed.

Example parse_empty_text : Json.parse "" = None.
Proof. reflexivity. Qed.

Example parse_array :
  Json.parse "[1, -2.5e3, true, null, []]"
  = Some (Json.Array [Json.Number "1"; Json.Number "-2.5e3"; Json.Bool true;
                      Json.Null; Json.Array []]).
Proof. reflexivity. Qed.

Example parse_object :
  Json.parse Sample.error_body
  = Some (Json.Object [("error", Json.Str "no such service")]).
Proof. reflexivity. Qed.

Example parse_trailing_comma : Json.parse "[1,]" = None.
Proof. reflexivity. Qed.

Example parse_leading_zero : Json.parse "01" = None.
Proof. reflexivity. Qed.

Example parse_two_values : Json.parse "null null" = None.
Proof. reflexivity. Qed.

(** The message for the error body of the counterexample of C7. *)
Example formatError_error_body :
  Error (fst (Api.formatError (lib := Sample.library)
                (Sample.response 500 None Sample.error_body) []))
  = "Request failed. Status Code: 500. Body: "
    +:+ Sample.quoted ("{\" +:+ Sample.quoted "error\" +:+ ":\"
                       +:+ Sample.quoted "no such service\" +:+ "}").
Proof. reflexivity. Qed.

(** A response with status 200 and a body of zero bytes: the list cannot
    be decoded. *)
Example GetServices_ok_without_body :
  fst (Api.GetServices (lib := Sample.library) (ipvs := Sample.types)
         (net := Sample.server (Sample.response 200 None "")) Sample.client [])
  = (None,
     Some (fmt_error ("unable to unmarshal body " +:+ Sample.quoted ""
                      +:+ ": invalid JSON text"))).
Proof. reflexivity. Qed.

(** A response with status 201 and no [Location] header: the identifier is
    empty and there is no error. *)
Example CreateService_without_location :
  fst (Api.CreateService (lib := Sample.library) (ipvs := Sample.types)
         (net := Sample.server (Sample.response 201 None "")) Sample.client
         Sample.web [])
  = ("", None).
Proof. reflexivity. Qed.

(** * Further properties of [client.go] *)

(** ** Deleting *)

Section Deleting.

Context {lib : Library} {net : Network} {ipvs : Ipvs.Types}.

Implicit Types (c : Api.Client) (resp : Http.Response) (log : list event).

(** X1: when the request that deletes a service is answered,
    [DeleteService] returns no error exactly when the status is 200, and the
    generic formatted error for any other status.  [DeleteDestination] does
    the same, on its own request. *)
Theorem Delete_by_status c log :
  (forall (id : string) resp,
      Spec.answered c (Spec.delete_request (Api.path c ["services"; id])) resp ->
      let err := fst (Api.DeleteService c id log) in
      (err = None <-> Http.StatusCode resp = 200)
      /\ (Http.StatusCode resp <> 200 -> err = Some (Spec.generic_error resp)))
  /\ (forall (serviceId destinationId : string) resp,
        Spec.answered c
          (Spec.delete_request
             (Api.path c ["services"; serviceId; "destinations"; destinationId]))
          resp ->
        let err := fst (Api.DeleteDestination c serviceId destinationId log) in
        (err = None <-> Http.StatusCode resp = 200)
        /\ (Http.StatusCode resp <> 200 -> err = Some (Spec.generic_error resp))).
Proof.
  split.
  - intros id resp Ha err. subst err. rewrite (DeleteService_run _ _ _ _ Ha).
    destruct (Z.eqb_spec (Http.StatusCode resp) 200) as [E|N]; cbn [fst];
      repeat split; intros; try tauto; try discriminate.
  - intros sid did resp Ha err. subst err.
    rewrite (DeleteDestination_run _ _ _ _ _ Ha).
    destruct (Z.eqb_spec (Http.StatusCode resp) 200) as [E|N]; cbn [fst];
      repeat split; intros; try tauto; try discriminate.
Qed.

End Deleting.

(** ** Failures before a response, and the effects after one *)

Section Effects.

Context {lib : Library} {net : Network} {ipvs : Ipvs.Types}.

Implicit Types (c : Api.Client) (resp : Http.Response) (log : list event)
  (e : error).

Lemma Get_failed c (url : string) e log :
  Trace.failed_with c (Spec.get_request url) e ->
  HttpClient.Get (Api.HttpClient c) url log
  = (inl e, log ++ [Sent (Api.HttpClient c) (Spec.get_request url)]).
Proof.
  intros [Hu He]. unfold HttpClient.Get, HttpClient.NewRequest.
  cbn in Hu. rewrite Hu. unfold_M. cbn.
  fold (Spec.get_request url). now rewrite He.
Qed.

Lemma Post_failed c (url body : string) e log :
  Trace.failed_with c (Spec.post_request url body) e ->
  HttpClient.Post (Api.HttpClient c) url "application/json" body log
  = (inl e, log ++ [Sent (Api.HttpClient c) (Spec.post_request url body)]).
Proof.
  intros [Hu He]. unfold HttpClient.Post, HttpClient.NewRequest.
  cbn in Hu. rewrite Hu. unfold_M. cbn. unfold Http.Header_Set.
  rewrite insert_empty. fold (Spec.post_request url body). now rewrite He.
Qed.

Lemma Delete_failed c (url : string) e log :
  Trace.failed_with c (Spec.delete_request url) e ->
  HttpClient.NewRequest "DELETE" url None = inr (Spec.delete_request url)
  /\ HttpClient.Do (Api.HttpClient c) (Spec.delete_request url) log
     = (inl e, log ++ [Sent (Api.HttpClient c) (Spec.delete_request url)]).
Proof.
  intros [Hu He]. unfold HttpClient.NewRequest.
  cbn in Hu. rewrite Hu. unfold_M. cbn. now rewrite He.
Qed.

(** X2: when the request can be built and the exchange ends with an error
    of the transport, every operation returns that very error with the zero
    value of its result, and the request sent is its only effect: nothing is
    read and nothing is closed. *)
Theorem transport_error_returned c e log :
  (forall id : string,
      let req := Spec.get_request (Api.path c ["services"; id]) in
      Trace.failed_with c req e ->
      Api.GetService c id log
      = ((None, Some e), log ++ [Sent (Api.HttpClient c) req]))
  /\ (let req := Spec.get_request (Api.path c ["services"]) in
      Trace.failed_with c req e ->
      Api.GetServices c log
      = ((None, Some e), log ++ [Sent (Api.HttpClient c) req]))
  /\ (forall (svc : Ipvs.Service) (json : string),
        let req := Spec.post_request (Api.path c ["services"]) json in
        Api.encode svc = inr json ->
        Trace.failed_with c req e ->
        Api.CreateService c svc log
        = (("", Some e), log ++ [Sent (Api.HttpClient c) req]))
  /\ (forall id : string,
        let req := Spec.delete_request (Api.path c ["services"; id]) in
        Trace.failed_with c req e ->
        Api.DeleteService c id log
        = (Some e, log ++ [Sent (Api.HttpClient c) req]))
  /\ (forall (dst : Ipvs.Destination) (json : string),
        let req :=
          Spec.post_request
            (Api.path c ["services"; Ipvs.ServiceId dst; "destinations"]) json in
        Api.encode dst = inr json ->
        Trace.failed_with c req e ->
        Api.AddDestination c dst log
        = (("", Some e), log ++ [Sent (Api.HttpClient c) req]))
  /\ (forall serviceId destinationId : string,
        let req :=
          Spec.delete_request
            (Api.path c ["services"; serviceId; "destinations"; destinationId]) in
        Trace.failed_with c req e ->
        Api.DeleteDestination c serviceId destinationId log
        = (Some e, log ++ [Sent (Api.HttpClient c) req])).
Proof.
  refine (conj _ (conj _ (conj _ (conj _ (conj _ _))))).
  - intros id req Hf. unfold Api.GetService.
    unfold mbind at 1. unfold M_bind at 1. now rewrite (Get_failed _ _ _ _ Hf).
  - intros req Hf. unfold Api.GetServices.
    unfold mbind at 1. unfold M_bind at 1. now rewrite (Get_failed _ _ _ _ Hf).
  - intros svc json req Hm Hf. unfold Api.CreateService. rewrite Hm.
    unfold mbind at 1. unfold M_bind at 1. now rewrite (Post_failed _ _ _ _ _ Hf).
  - intros id req Hf. unfold Api.DeleteService.
    destruct (Delete_failed _ _ _ log Hf) as [Hn Hd]. rewrite Hn.
    unfold mbind at 1. unfold M_bind at 1. now rewrite Hd.
  - intros dst json req Hm Hf. unfold Api.AddDestination. rewrite Hm.
    unfold mbind at 1. unfold M_bind at 1. now rewrite (Post_failed _ _ _ _ _ Hf).
  - intros sid did req Hf. unfold Api.DeleteDestination.
    destruct (Delete_failed _ _ _ log Hf) as [Hn Hd]. rewrite Hn.
    unfold mbind at 1. unfold M_bind at 1. now rewrite Hd.
Qed.

(** X3: when [net/url] refuses the address of the request, every operation
    returns the error of [net/url] with the zero value of its result and has
    no effect at all: no request is sent.  For [CreateService] and
    [AddDestination] this is so once the entity has a JSON form. *)
Theorem refused_address_sends_nothing c e log :
  (forall id : string,
      url_Parse (Api.path c ["services"; id]) = Some e ->
      Api.GetService c id log = ((None, Some e), log)
      /\ Api.DeleteService c id log = (Some e, log))
  /\ (url_Parse (Api.path c ["services"]) = Some e ->
      Api.GetServices c log = ((None, Some e), log)
      /\ forall (svc : Ipvs.Service) (json : string),
           Api.encode svc = inr json ->
           Api.CreateService c svc log = (("", Some e), log))
  /\ (forall (dst : Ipvs.Destination) (json : string),
        Api.encode dst = inr json ->
        url_Parse (Api.path c ["services"; Ipvs.ServiceId dst; "destinations"])
        = Some e ->
        Api.AddDestination c dst log = (("", Some e), log))
  /\ (forall serviceId destinationId : string,
        url_Parse
          (Api.path c ["services"; serviceId; "destinations"; destinationId])
        = Some e ->
        Api.DeleteDestination c serviceId destinationId log = (Some e, log)).
Proof.
  refine (conj _ (conj _ (conj _ _))).
  - intros id Hu. split.
    + unfold Api.GetService, HttpClient.Get, HttpClient.NewRequest. now rewrite Hu.
    + unfold Api.DeleteService, HttpClient.NewRequest. now rewrite Hu.
  - intros Hu. split.
    + unfold Api.GetServices, HttpClient.Get, HttpClient.NewRequest. now rewrite Hu.
    + intros svc json Hm.
      unfold Api.CreateService, HttpClient.Post, HttpClient.NewRequest.
      now rewrite Hm, Hu.
  - intros dst json Hm Hu.
    unfold Api.AddDestination, HttpClient.Post, HttpClient.NewRequest.
    now rewrite Hm, Hu.
  - intros sid did Hu.
    unfold Api.DeleteDestination, HttpClient.NewRequest. now rewrite Hu.
Qed.

(** X4: once a response has arrived, every operation closes its body as
    its last effect, exactly once, and reads it at most once and before
    that: [GetService] reads it unless the status is 404, [GetServices]
    unless it is 204, [CreateService] and [AddDestination] unless it is 201,
    [DeleteService] and [DeleteDestination] unless it is 200. *)
Theorem body_closed_after_response c resp log :
  (forall id : string,
      let req := Spec.get_request (Api.path c ["services"; id]) in
      Spec.answered c req resp ->
      snd (Api.GetService c id log)
      = log ++ Sent (Api.HttpClient c) req
               :: Trace.after_response resp (negb (Http.StatusCode resp =? 404)))
  /\ (let req := Spec.get_request (Api.path c ["services"]) in
      Spec.answered c req resp ->
      snd (Api.GetServices c log)
      = log ++ Sent (Api.HttpClient c) req
               :: Trace.after_response resp (negb (Http.StatusCode resp =? 204)))
  /\ (forall (svc : Ipvs.Service) (json : string),
        let req := Spec.post_request (Api.path c ["services"]) json in
        Api.encode svc = inr json ->
        Spec.answered c req resp ->
        snd (Api.CreateService c svc log)
        = log ++ Sent (Api.HttpClient c) req
                 :: Trace.after_response resp (negb (Http.StatusCode resp =? 201)))
  /\ (forall id : string,
        let req := Spec.delete_request (Api.path c ["services"; id]) in
        Spec.answered c req resp ->
        snd (Api.DeleteService c id log)
        = log ++ Sent (Api.HttpClient c) req
                 :: Trace.after_response resp (negb (Http.StatusCode resp =? 200)))
  /\ (forall (dst : Ipvs.Destination) (json : string),
        let req :=
          Spec.post_request
            (Api.path c ["services"; Ipvs.ServiceId dst; "destinations"]) json in
        Api.encode dst = inr json ->
        Spec.answered c req resp ->
        snd (Api.AddDestination c dst log)
        = log ++ Sent (Api.HttpClient c) req
                 :: Trace.after_response resp (negb (Http.StatusCode resp =? 201)))
  /\ (forall serviceId destinationId : string,
        let req :=
          Spec.delete_request
            (Api.path c ["services"; serviceId; "destinations"; destinationId]) in
        Spec.answered c req resp ->
        snd (Api.DeleteDestination c serviceId destinationId log)
        = log ++ Sent (Api.HttpClient c) req
                 :: Trace.after_response resp (negb (Http.StatusCode resp =? 200))).
Proof.
  refine (conj _ (conj _ (conj _ (conj _ (conj _ _))))).
  - intros id req Ha. rewrite (GetService_run _ _ _ _ Ha). fold req.
    unfold Trace.after_response.
    destruct (Z.eqb_spec (Http.StatusCode resp) 200) as [E|N].
    + rewrite E. reflexivity.
    + destruct (Http.StatusCode resp =? 404); reflexivity.
  - intros req Ha. rewrite (GetServices_run _ _ _ Ha). fold req.
    unfold Trace.after_response.
    destruct (Z.eqb_spec (Http.StatusCode resp) 200) as [E|N].
    + rewrite E. reflexivity.
    + destruct (Http.StatusCode resp =? 204); reflexivity.
  - intros svc json req Hm Ha. rewrite (CreateService_run _ _ _ _ _ Hm Ha). fold req.
    unfold Trace.after_response.
    destruct (Http.StatusCode resp =? 201); reflexivity.
  - intros id req Ha. rewrite (DeleteService_run _ _ _ _ Ha). fold req.
    unfold Trace.after_response.
    destruct (Http.StatusCode resp =? 200); reflexivity.
  - intros dst json req Hm Ha. rewrite (AddDestination_run _ _ _ _ _ Hm Ha). fold req.
    unfold Trace.after_response.
    destruct (Http.StatusCode resp =? 201); reflexivity.
  - intros sid did req Ha. rewrite (DeleteDestination_run _ _ _ _ _ Ha). fold req.
    unfold Trace.after_response.
    destruct (Http.StatusCode resp =? 200); reflexivity.
Qed.

End Effects.

(** ** Addresses and identifiers *)

Lemma replicate_slash_trimmed (n : nat) :
  Strings.TrimRight (replicate_byte n slash) "/" = "".
Proof. induction n as [|n IH]; [reflexivity|]. simpl. now rewrite IH. Qed.

Lemma TrimRight_app_slashes (s : string) (n : nat) :
  Strings.TrimRight (s +:+ replicate_byte n slash) "/" = Strings.TrimRight s "/".
Proof.
  induction s as [|c s IH].
  - apply replicate_slash_trimmed.
  - simpl. now rewrite IH.
Qed.

Lemma join_after_app (sep : string) (a b : list string) :
  join_after sep (a ++ b) = join_after sep a +:+ join_after sep b.
Proof.
  induction a as [|x a IH]; [reflexivity|].
  simpl. now rewrite IH, !append_assoc.
Qed.

Lemma path_join_after (c : Api.Client) (paths : list string) :
  Api.path c paths = Strings.TrimRight (Api.Addr c) "/" +:+ join_after "/" paths.
Proof. apply Join_cons. Qed.

Lemma no_slash_app (a b : string) :
  Trace.no_slash (a +:+ b) = Trace.no_slash a && Trace.no_slash b.
Proof.
  unfold Trace.no_slash. induction a as [|c a IH]; [reflexivity|].
  simpl. now rewrite IH, andb_assoc.
Qed.

(** What stands before the first separator of a string, and what stands
    after it, are determined by the string. *)
Lemma first_separator_unique (sep : ascii) (a a' r r' : string) :
  all_bytes (fun c => negb (Ascii.eqb c sep)) a = true ->
  all_bytes (fun c => negb (Ascii.eqb c sep)) a' = true ->
  a +:+ String sep r = a' +:+ String sep r' ->
  a = a' /\ r = r'.
Proof.
  revert a'. induction a as [|c a IH]; intros [|c' a'] Ha Ha' Heq; simpl in *.
  - injection Heq as ->. now split.
  - injection Heq as <- _. now rewrite Ascii.eqb_refl in Ha'.
  - injection Heq as -> _. now rewrite Ascii.eqb_refl in Ha.
  - injection Heq as -> Heq.
    apply andb_true_iff in Ha as [_ Ha]. apply andb_true_iff in Ha' as [_ Ha'].
    destruct (IH a' Ha Ha' Heq) as [-> ->]. now split.
Qed.

Lemma Split_no_separator (s : string) (sep : ascii) :
  all_bytes (fun c => negb (Ascii.eqb c sep)) s = true ->
  Strings.Split s sep = [s].
Proof.
  induction s as [|c s IH]; [reflexivity|].
  simpl. intros [Hc Hs]%andb_true_iff. rewrite (IH Hs).
  apply negb_true_iff in Hc. now rewrite Hc.
Qed.

(** After a separator and a piece without separator, that piece is the
    last one. *)
Lemma Split_app_last (pre id : string) (sep : ascii) :
  all_bytes (fun c => negb (Ascii.eqb c sep)) id = true ->
  exists p more,
    Strings.Split (pre +:+ String sep id) sep = p :: more
    /\ more <> [] /\ List.last more "" = id.
Proof.
  intros Hid. induction pre as [|c pre (p & more & Hs & Hne & Hl)].
  - exists "", [id]. simpl. rewrite Ascii.eqb_refl, (Split_no_separator _ _ Hid).
    repeat split. discriminate.
  - simpl. rewrite Hs. destruct (Ascii.eqb c sep).
    + exists "", (p :: more). repeat split; [discriminate|].
      destruct more; [congruence | exact Hl].
    + exists (String c p), more. now repeat split.
Qed.

(** The piece after the last slash is what [idFromLocation] takes. *)
Lemma last_piece_after_slash (pre id : string) :
  Trace.no_slash id = true ->
  let parts := Strings.Split (pre +:+ "/" +:+ id) slash in
  nth (length parts - 1) parts "" = id.
Proof.
  intros Hid parts. subst parts. rewrite nth_last.
  destruct (Split_app_last pre id slash Hid) as (p & more & Hs & Hne & Hl).
  change (pre +:+ "/" +:+ id) with (pre +:+ String slash id). rewrite Hs.
  destruct more; [congruence | exact Hl].
Qed.

(** X9: when the [Location] header ends with a slash followed by a piece
    without slash, [idFromLocation] returns that piece (the empty identifier
    when the header ends with a slash). *)
Theorem idFromLocation_after_last_slash (resp : Http.Response) (pre id : string) :
  Http.Header_Get (Http.Header resp) "Location" = pre +:+ "/" +:+ id ->
  Trace.no_slash id = true ->
  Api.idFromLocation resp = id.
Proof.
  intros Hloc Hid. unfold Api.idFromLocation. rewrite Hloc.
  now apply last_piece_after_slash.
Qed.

Lemma idFromLocation_after_last_slash_witness :
  Api.idFromLocation (Trace.located 201 "http://host/services/42"
                        {| Http.content := ""; Http.read_error := None |})
  = "42".
Proof.
  apply (idFromLocation_after_last_slash _ "http://host/services" "42");
    reflexivity.
Defined.

(** X7: slashes added at the end of the address of the client change
    neither the paths nor any operation. *)
Theorem trailing_slashes_ignored {lib : Library} {net : Network} {ipvs : Ipvs.Types}
  (c : Api.Client) (n : nat) :
  (forall paths, Api.path (Trace.with_slashes c n) paths = Api.path c paths)
  /\ Api.GetServices (Trace.with_slashes c n) = Api.GetServices c
  /\ (forall id, Api.GetService (Trace.with_slashes c n) id = Api.GetService c id)
  /\ (forall svc, Api.CreateService (Trace.with_slashes c n) svc = Api.CreateService c svc)
  /\ (forall id, Api.DeleteService (Trace.with_slashes c n) id = Api.DeleteService c id)
  /\ (forall dst, Api.AddDestination (Trace.with_slashes c n) dst = Api.AddDestination c dst)
  /\ (forall sid did,
         Api.DeleteDestination (Trace.with_slashes c n) sid did
         = Api.DeleteDestination c sid did).
Proof.
  assert (Hp : forall paths, Api.path (Trace.with_slashes c n) paths = Api.path c paths).
  { intros paths. unfold Api.path, Trace.with_slashes. cbn [Api.Addr].
    now rewrite TrimRight_app_slashes. }
  split; [exact Hp|].
  refine (conj _ (conj _ (conj _ (conj _ (conj _ _))))).
  - unfold Api.GetServices. now rewrite Hp.
  - intros id. unfold Api.GetService. now rewrite Hp.
  - intros svc. unfold Api.CreateService. now rewrite Hp.
  - intros id. unfold Api.DeleteService. now rewrite Hp.
  - intros dst. unfold Api.AddDestination. now rewrite Hp.
  - intros sid did. unfold Api.DeleteDestination. now rewrite Hp.
Qed.

(** X8: the path of more segments is the path of the first ones followed by
    each further segment with a slash before it; so the address of a
    destination is the address of its service, then [/destinations/] and the
    identifier of the destination, and the path of no segment is the address
    without its trailing slashes. *)
Theorem path_nests (c : Api.Client) (paths more : list string) :
  Api.path c (paths ++ more) = Api.path c paths +:+ join_after "/" more
  /\ Api.path c [] = Strings.TrimRight (Api.Addr c) "/"
  /\ (forall sid did : string,
         Api.path c ["services"; sid; "destinations"; did]
         = Api.path c ["services"; sid] +:+ "/destinations/" +:+ did).
Proof.
  split; [|split].
  - now rewrite !path_join_after, join_after_app, append_assoc.
  - reflexivity.
  - intros sid did.
    change ["services"; sid; "destinations"; did]
      with (["services"; sid] ++ ["destinations"; did]).
    rewrite !path_join_after, join_after_app, append_assoc. simpl.
    now rewrite !append_nil_r.
Qed.

(** X5: the segments of a path are not escaped: deleting the service whose
    identifier is [sid], then [/destinations/], then [did], is deleting the
    destination [did] of the service [sid]. *)
Theorem DeleteService_reaches_destination
  {lib : Library} {net : Network} {ipvs : Ipvs.Types}
  (c : Api.Client) (sid did : string) :
  Api.path c ["services"; sid +:+ "/destinations/" +:+ did]
  = Api.path c ["services"; sid; "destinations"; did]
  /\ Api.DeleteService c (sid +:+ "/destinations/" +:+ did)
     = Api.DeleteDestination c sid did.
Proof.
  assert (Hp : Api.path c ["services"; sid +:+ "/destinations/" +:+ did]
               = Api.path c ["services"; sid; "destinations"; did]).
  { rewrite !path_join_after. simpl. now rewrite !append_assoc, !append_nil_r. }
  split; [exact Hp|].
  unfold Api.DeleteService, Api.DeleteDestination. now rewrite Hp.
Qed.

(** X6: services with different identifiers have different addresses, and
    so have destinations, as long as the identifiers of their services hold
    no slash. *)
Theorem paths_injective (c : Api.Client) :
  (forall id id' : string,
      Api.path c ["services"; id] = Api.path c ["services"; id'] -> id = id')
  /\ (forall sid sid' did did' : string,
        Trace.no_slash sid = true ->
        Trace.no_slash sid' = true ->
        Api.path c ["services"; sid; "destinations"; did]
        = Api.path c ["services"; sid'; "destinations"; did'] ->
        sid = sid' /\ did = did').
Proof.
  split.
  - intros id id' Hp. rewrite !path_join_after in Hp.
    apply String.app_inj in Hp. simpl in Hp. rewrite !append_nil_r in Hp.
    now injection Hp.
  - intros sid sid' did did' Hs Hs' Hp. rewrite !path_join_after in Hp.
    apply String.app_inj in Hp. simpl in Hp. rewrite !append_nil_r in Hp.
    injection Hp as Hp.
    destruct (first_separator_unique slash sid sid' _ _ Hs Hs' Hp) as [-> Hd].
    split; [reflexivity|]. now injection Hd.
Qed.

Lemma paths_injective_witness :
  Trace.no_slash "5" = true
  /\ Api.path Sample.client ["services"; "5"; "destinations"; "7"]
     = "http://host/services/5/destinations/7"
  /\ "5" = "5" /\ "7" = "7".
Proof.
  split; [reflexivity | split; [reflexivity|]].
  apply (proj2 (paths_injective Sample.client) "5" "5" "7" "7");
    reflexivity.
Defined.

(** Without the condition of X6, two destinations can share an address. *)
Example paths_collide :
  Api.path Sample.client ["services"; "a/destinations/b"; "destinations"; "c"]
  = Api.path Sample.client ["services"; "a"; "destinations"; "b/destinations/c"].
Proof. reflexivity. Qed.

(** ** Creating, then addressing what was created *)

Section RoundTrip.

Context {lib : Library} {net : Network} {ipvs : Ipvs.Types}.

(** X10: when the server answers the creation of a service with 201 and a
    [Location] header that is the address of the service [id], an
    identifier without slash, [CreateService] returns [id] and no error, so
    that the address built from the returned identifier is the address the
    server gave.  [AddDestination] does the same with the address of the
    destination, on its own request. *)
Theorem created_identifier_addresses_location (c : Api.Client) (log : list event) :
  (forall (svc : Ipvs.Service) (json id : string) (resp : Http.Response),
      Api.encode svc = inr json ->
      Spec.answered c (Spec.post_request (Api.path c ["services"]) json) resp ->
      Http.StatusCode resp = 201 ->
      Http.Header_Get (Http.Header resp) "Location" = Api.path c ["services"; id] ->
      Trace.no_slash id = true ->
      let out := fst (Api.CreateService c svc log) in
      out = (id, None)
      /\ Api.path c ["services"; fst out]
         = Http.Header_Get (Http.Header resp) "Location")
  /\ (forall (dst : Ipvs.Destination) (json id : string) (resp : Http.Response),
        Api.encode dst = inr json ->
        Spec.answered c
          (Spec.post_request
             (Api.path c ["services"; Ipvs.ServiceId dst; "destinations"]) json)
          resp ->
        Http.StatusCode resp = 201 ->
        Http.Header_Get (Http.Header resp) "Location"
        = Api.path c ["services"; Ipvs.ServiceId dst; "destinations"; id] ->
        Trace.no_slash id = true ->
        let out := fst (Api.AddDestination c dst log) in
        out = (id, None)
        /\ Api.path c ["services"; Ipvs.ServiceId dst; "destinations"; fst out]
           = Http.Header_Get (Http.Header resp) "Location").
Proof.
  split.
  - intros svc json id resp Hm Ha Hs Hl Hi out.
    assert (Ho : out = (id, None)).
    { subst out. rewrite (CreateService_run _ _ _ _ _ Hm Ha), Hs. cbn.
      f_equal. unfold Api.idFromLocation. rewrite Hl.
      change ["services"; id] with (["services"] ++ [id]).
      rewrite path_join_after, join_after_app, <- append_assoc, <- path_join_after.
      simpl. rewrite append_nil_r.
      now apply (last_piece_after_slash (Api.path c ["services"]) id). }
    rewrite Ho. cbn [fst]. now rewrite Hl.
  - intros dst json id resp Hm Ha Hs Hl Hi out.
    assert (Ho : out = (id, None)).
    { subst out. rewrite (AddDestination_run _ _ _ _ _ Hm Ha), Hs. cbn.
      f_equal. unfold Api.idFromLocation. rewrite Hl.
      change ["services"; Ipvs.ServiceId dst; "destinations"; id]
        with (["services"; Ipvs.ServiceId dst; "destinations"] ++ [id]).
      rewrite path_join_after, join_after_app, <- append_assoc, <- path_join_after.
      simpl. rewrite append_nil_r.
      now apply (last_piece_after_slash
                   (Api.path c ["services"; Ipvs.ServiceId dst; "destinations"])
                   id). }
    rewrite Ho. cbn [fst]. now rewrite Hl.
Qed.

End RoundTrip.

(** ** Decoding the body *)

Section Decoding.

Context {lib : Library} {net : Network} {ipvs : Ipvs.Types}.

Implicit Types (c : Api.Client) (resp : Http.Response) (log : list event).

Lemma decoded_read_error {T : Type} {target : Json.Target T}
  resp (obj : T) (e : error) :
  Http.read_error (Http.Body resp) = Some e ->
  Spec.decoded resp obj = (obj, Some e).
Proof.
  intros Hr. unfold Spec.decoded, Api.decode. unfold_M. cbn. now rewrite Hr.
Qed.

Lemma decoded_syntax_error {T : Type} {target : Json.Target T} resp (obj : T) :
  Http.read_error (Http.Body resp) = None ->
  Json.parse (Http.content (Http.Body resp)) = None ->
  Spec.decoded resp obj
  = (obj, Some (Trace.wrapped (Http.content (Http.Body resp))
                  (SyntaxError (Http.content (Http.Body resp))))).
Proof.
  intros Hr Hp. unfold Spec.decoded, Api.decode. unfold_M. cbn.
  rewrite Hr. unfold Json.Unmarshal. now rewrite Hp.
Qed.

Lemma decoded_with_error {T : Type} {target : Json.Target T}
  resp (obj obj' : T) (v : Json.value) (o : Json.outcome) (e : error) :
  Http.read_error (Http.Body resp) = None ->
  Json.parse (Http.content (Http.Body resp)) = Some v ->
  Json.decodeValue v obj = (obj', o) ->
  Json.error_of o = Some e ->
  Spec.decoded resp obj
  = (obj', Some (Trace.wrapped (Http.content (Http.Body resp)) e)).
Proof.
  intros Hr Hp Hd He. unfold Spec.decoded, Api.decode. unfold_M. cbn.
  rewrite Hr. unfold Json.Unmarshal. now rewrite Hp, Hd, He.
Qed.

Lemma GetService_ok c (id : string) resp log :
  Spec.answered c (Spec.get_request (Api.path c ["services"; id])) resp ->
  Http.StatusCode resp = 200 ->
  fst (Api.GetService c id log) = Spec.decoded resp None.
Proof. intros Ha Hs. now rewrite (GetService_run _ _ _ _ Ha), Hs. Qed.

Lemma GetServices_ok c resp log :
  Spec.answered c (Spec.get_request (Api.path c ["services"])) resp ->
  Http.StatusCode resp = 200 ->
  fst (Api.GetServices c log) = Spec.decoded resp None.
Proof. intros Ha Hs. now rewrite (GetServices_run _ _ _ Ha), Hs. Qed.

(** X11: on a response with status 200 whose body cannot be used,
    [GetService] and [GetServices] return nil and an error: the error of the
    reading itself when reading the body fails, and, when the body is not
    valid JSON, an error whose message has the body, quoted, and the message
    of the error of [json.Unmarshal]. *)
Theorem unusable_body c resp log :
  Http.StatusCode resp = 200 ->
  (forall e : error,
      Http.read_error (Http.Body resp) = Some e ->
      (forall id : string,
          Spec.answered c (Spec.get_request (Api.path c ["services"; id])) resp ->
          fst (Api.GetService c id log) = (None, Some e))
      /\ (Spec.answered c (Spec.get_request (Api.path c ["services"])) resp ->
          fst (Api.GetServices c log) = (None, Some e)))
  /\ (Http.read_error (Http.Body resp) = None ->
      Json.parse (Http.content (Http.Body resp)) = None ->
      let body := Http.content (Http.Body resp) in
      let err :=
        fmt_error ("unable to unmarshal body " +:+ Strconv.Quote body +:+ ": "
                   +:+ Error (SyntaxError body)) in
      (forall id : string,
          Spec.answered c (Spec.get_request (Api.path c ["services"; id])) resp ->
          fst (Api.GetService c id log) = (None, Some err))
      /\ (Spec.answered c (Spec.get_request (Api.path c ["services"])) resp ->
          fst (Api.GetServices c log) = (None, Some err))).
Proof.
  intros Hs. split.
  - intros e Hr. split.
    + intros id Ha. rewrite (GetService_ok _ _ _ _ Ha Hs).
      now apply decoded_read_error.
    + intros Ha. rewrite (GetServices_ok _ _ _ Ha Hs).
      now apply decoded_read_error.
  - intros Hr Hp body err. split.
    + intros id Ha. rewrite (GetService_ok _ _ _ _ Ha Hs).
      now apply decoded_syntax_error.
    + intros Ha. rewrite (GetServices_ok _ _ _ Ha Hs).
      now apply decoded_syntax_error.
Qed.

(** X12: on a response with status 200 whose body is the JSON value
    [null], with or without white space around it, [GetService] returns a
    nil service and [GetServices] a nil slice, both without error; when the
    body is the empty JSON array, [GetServices] returns the empty slice that
    is not nil. *)
Theorem null_and_empty_bodies c resp log :
  Http.StatusCode resp = 200 ->
  Http.read_error (Http.Body resp) = None ->
  (Json.parse (Http.content (Http.Body resp)) = Some Json.Null ->
   (forall id : string,
       Spec.answered c (Spec.get_request (Api.path c ["services"; id])) resp ->
       fst (Api.GetService c id log) = (None, None))
   /\ (Spec.answered c (Spec.get_request (Api.path c ["services"])) resp ->
       fst (Api.GetServices c log) = (None, None)))
  /\ (Json.parse (Http.content (Http.Body resp)) = Some (Json.Array []) ->
      Spec.answered c (Spec.get_request (Api.path c ["services"])) resp ->
      fst (Api.GetServices c log) = (Some [], None)).
Proof.
  intros Hs Hr. split.
  - intros Hp. split.
    + intros id Ha. rewrite (GetService_ok _ _ _ _ Ha Hs).
      now apply (decoded_ok resp None None Json.Null).
    + intros Ha. rewrite (GetServices_ok _ _ _ Ha Hs).
      now apply (decoded_ok resp None None Json.Null).
  - intros Hp Ha. rewrite (GetServices_ok _ _ _ Ha Hs).
    now apply (decoded_ok resp None (Some []) (Json.Array [])).
Qed.

(** X13: on a response with status 200 whose body is a JSON value other
    than [null] that does not decode into a service without error,
    [GetService] returns both the service as the decoder left it, which is
    not nil, and the error, wrapped with the quoted body. *)
Theorem GetService_service_and_error c (id : string) resp
  (v : Json.value) (svc : Ipvs.Service) (o : Json.outcome) (e : error) log :
  Spec.answered c (Spec.get_request (Api.path c ["services"; id])) resp ->
  Http.StatusCode resp = 200 ->
  Http.read_error (Http.Body resp) = None ->
  Json.parse (Http.content (Http.Body resp)) = Some v ->
  v <> Json.Null ->
  Json.decodeInto v Json.zero = (svc, o) ->
  Json.error_of o = Some e ->
  fst (Api.GetService c id log)
  = (Some svc,
     Some (fmt_error ("unable to unmarshal body "
                      +:+ Strconv.Quote (Http.content (Http.Body resp))
                      +:+ ": " +:+ Error e))).
Proof.
  intros Ha Hs Hr Hp Hv Hd He. rewrite (GetService_ok _ _ _ _ Ha Hs).
  apply (decoded_with_error resp None (Some svc) v o e Hr Hp); [|exact He].
  cbn. destruct v; try congruence; cbn; now rewrite Hd.
Qed.

End Decoding.

(** ** Success *)

Section Success.

Context {lib : Library} {net : Network} {ipvs : Ipvs.Types}.

Implicit Types (c : Api.Client) (resp : Http.Response) (log : list event).

(** An operation that posts ends with an error and the empty identifier,
    or the server has answered 201. *)
Lemma CreateService_cases c (svc : Ipvs.Service) log :
  (exists e, fst (Api.CreateService c svc log) = ("", Some e))
  \/ (exists json resp,
        Api.encode svc = inr json
        /\ Spec.answered c (Spec.post_request (Api.path c ["services"]) json) resp
        /\ Http.StatusCode resp = 201
        /\ fst (Api.CreateService c svc log) = (Api.idFromLocation resp, None)).
Proof.
  destruct (Api.encode svc) as [e|json] eqn:Hm.
  { left. exists e. unfold Api.CreateService. now rewrite Hm. }
  destruct (url_Parse (Api.path c ["services"])) as [e|] eqn:Hu.
  { left. exists e.
    unfold Api.CreateService, HttpClient.Post, HttpClient.NewRequest.
    now rewrite Hm, Hu. }
  destruct (exchange (Api.HttpClient c)
              (Spec.post_request (Api.path c ["services"]) json))
    as [e|resp] eqn:He.
  { left. exists e. unfold Api.CreateService. rewrite Hm.
    unfold mbind at 1. unfold M_bind at 1.
    now rewrite (Post_failed c _ json e log (conj Hu He)). }
  assert (Ha : Spec.answered c (Spec.post_request (Api.path c ["services"]) json) resp)
    by (split; assumption).
  rewrite (CreateService_run _ _ _ _ _ Hm Ha).
  destruct (Z.eqb_spec (Http.StatusCode resp) 201) as [Hs|Hs].
  - right. now exists json, resp.
  - left. now exists (Spec.generic_error resp).
Qed.

Lemma AddDestination_cases c (dst : Ipvs.Destination) log :
  (exists e, fst (Api.AddDestination c dst log) = ("", Some e))
  \/ (exists json resp,
        Api.encode dst = inr json
        /\ Spec.answered c
             (Spec.post_request
                (Api.path c ["services"; Ipvs.ServiceId dst; "destinations"]) json)
             resp
        /\ Http.StatusCode resp = 201
        /\ fst (Api.AddDestination c dst log) = (Api.idFromLocation resp, None)).
Proof.
  set (url := Api.path c ["services"; Ipvs.ServiceId dst; "destinations"]).
  destruct (Api.encode dst) as [e|json] eqn:Hm.
  { left. exists e. unfold Api.AddDestination. now rewrite Hm. }
  destruct (url_Parse url) as [e|] eqn:Hu.
  { left. exists e.
    unfold Api.AddDestination, HttpClient.Post, HttpClient.NewRequest.
    fold url. now rewrite Hm, Hu. }
  destruct (exchange (Api.HttpClient c) (Spec.post_request url json))
    as [e|resp] eqn:He.
  { left. exists e. unfold Api.AddDestination. rewrite Hm.
    unfold mbind at 1. unfold M_bind at 1. fold url.
    now rewrite (Post_failed c url json e log (conj Hu He)). }
  assert (Ha : Spec.answered c (Spec.post_request url json) resp)
    by (split; assumption).
  rewrite (AddDestination_run _ _ _ _ _ Hm Ha).
  destruct (Z.eqb_spec (Http.StatusCode resp) 201) as [Hs|Hs].
  - right. now exists json, resp.
  - left. now exists (Spec.generic_error resp).
Qed.

(** An operation that deletes ends with an error, or the server has
    answered 200. *)
Lemma DeleteService_cases c (id : string) log :
  (exists e, fst (Api.DeleteService c id log) = Some e)
  \/ (exists resp,
        Spec.answered c (Spec.delete_request (Api.path c ["services"; id])) resp
        /\ Http.StatusCode resp = 200
        /\ fst (Api.DeleteService c id log) = None).
Proof.
  set (url := Api.path c ["services"; id]).
  destruct (url_Parse url) as [e|] eqn:Hu.
  { left. exists e. unfold Api.DeleteService, HttpClient.NewRequest.
    fold url. now rewrite Hu. }
  destruct (exchange (Api.HttpClient c) (Spec.delete_request url))
    as [e|resp] eqn:He.
  { left. exists e. unfold Api.DeleteService. fold url.
    destruct (Delete_failed c url e log (conj Hu He)) as [Hn Hd]. rewrite Hn.
    unfold mbind at 1. unfold M_bind at 1. now rewrite Hd. }
  assert (Ha : Spec.answered c (Spec.delete_request url) resp)
    by (split; assumption).
  rewrite (DeleteService_run _ _ _ _ Ha).
  destruct (Z.eqb_spec (Http.StatusCode resp) 200) as [Hs|Hs].
  - right. now exists resp.
  - left. now exists (Spec.generic_error resp).
Qed.

Lemma DeleteDestination_cases c (serviceId destinationId : string) log :
  (exists e, fst (Api.DeleteDestination c serviceId destinationId log) = Some e)
  \/ (exists resp,
        Spec.answered c
          (Spec.delete_request
             (Api.path c ["services"; serviceId; "destinations"; destinationId]))
          resp
        /\ Http.StatusCode resp = 200
        /\ fst (Api.DeleteDestination c serviceId destinationId log) = None).
Proof.
  set (url := Api.path c ["services"; serviceId; "destinations"; destinationId]).
  destruct (url_Parse url) as [e|] eqn:Hu.
  { left. exists e. unfold Api.DeleteDestination, HttpClient.NewRequest.
    fold url. now rewrite Hu. }
  destruct (exchange (Api.HttpClient c) (Spec.delete_request url))
    as [e|resp] eqn:He.
  { left. exists e. unfold Api.DeleteDestination. fold url.
    destruct (Delete_failed c url e log (conj Hu He)) as [Hn Hd]. rewrite Hn.
    unfold mbind at 1. unfold M_bind at 1. now rewrite Hd. }
  assert (Ha : Spec.answered c (Spec.delete_request url) resp)
    by (split; assumption).
  rewrite (DeleteDestination_run _ _ _ _ _ Ha).
  destruct (Z.eqb_spec (Http.StatusCode resp) 200) as [Hs|Hs].
  - right. now exists resp.
  - left. now exists (Spec.generic_error resp).
Qed.

(** X14: whatever the entity, the address and the network, [CreateService]
    and [AddDestination] return the empty identifier whenever they return an
    error; and they return no error only when the entity has a JSON form and
    the server has answered the request with status 201, the identifier then
    being the one taken from that response.  [DeleteService] and
    [DeleteDestination] return no error only when the server has answered
    the request with status 200. *)
Theorem success_comes_from_the_server c log :
  (forall svc : Ipvs.Service,
      let out := fst (Api.CreateService c svc log) in
      (snd out <> None -> fst out = "")
      /\ (snd out = None ->
          exists json resp,
            Api.encode svc = inr json
            /\ Spec.answered c (Spec.post_request (Api.path c ["services"]) json) resp
            /\ Http.StatusCode resp = 201
            /\ fst out = Api.idFromLocation resp))
  /\ (forall dst : Ipvs.Destination,
        let out := fst (Api.AddDestination c dst log) in
        (snd out <> None -> fst out = "")
        /\ (snd out = None ->
            exists json resp,
              Api.encode dst = inr json
              /\ Spec.answered c
                   (Spec.post_request
                      (Api.path c ["services"; Ipvs.ServiceId dst; "destinations"])
                      json)
                   resp
              /\ Http.StatusCode resp = 201
              /\ fst out = Api.idFromLocation resp))
  /\ (forall id : string,
        fst (Api.DeleteService c id log) = None ->
        exists resp,
          Spec.answered c (Spec.delete_request (Api.path c ["services"; id])) resp
          /\ Http.StatusCode resp = 200)
  /\ (forall serviceId destinationId : string,
        fst (Api.DeleteDestination c serviceId destinationId log) = None ->
        exists resp,
          Spec.answered c
            (Spec.delete_request
               (Api.path c ["services"; serviceId; "destinations"; destinationId]))
            resp
          /\ Http.StatusCode resp = 200).
Proof.
  refine (conj _ (conj _ (conj _ _))).
  - intros svc out. subst out.
    destruct (CreateService_cases c svc log)
      as [[e ->] | (json & resp & Hm & Ha & Hs & ->)]; cbn [fst snd].
    + split; [reflexivity | discriminate].
    + split; [congruence | intros _; now exists json, resp].
  - intros dst out. subst out.
    destruct (AddDestination_cases c dst log)
      as [[e ->] | (json & resp & Hm & Ha & Hs & ->)]; cbn [fst snd].
    + split; [reflexivity | discriminate].
    + split; [congruence | intros _; now exists json, resp].
  - intros id.
    destruct (DeleteService_cases c id log) as [[e ->] | (resp & Ha & Hs & ->)].
    + discriminate.
    + intros _. now exists resp.
  - intros sid did.
    destruct (DeleteDestination_cases c sid did log)
      as [[e ->] | (resp & Ha & Hs & ->)].
    + discriminate.
    + intros _. now exists resp.
Qed.

End Success.

(** ** Reading the status code back from the message *)

Lemma string_of_uint_no_dot (d : Decimal.uint) :
  all_bytes (fun c => negb (Ascii.eqb c ".")) (NilEmpty.string_of_uint d) = true.
Proof. induction d; simpl; auto. Qed.

Lemma Itoa_no_dot (n : Z) :
  all_bytes (fun c => negb (Ascii.eqb c ".")) (Strconv.Itoa n) = true.
Proof.
  unfold Strconv.Itoa, NilZero.string_of_int, NilZero.string_of_uint.
  destruct (Z.to_int n) as [d|d]; destruct d; simpl;
    auto using string_of_uint_no_dot.
Qed.

Lemma Itoa_injective (n m : Z) : Strconv.Itoa n = Strconv.Itoa m -> n = m.
Proof.
  unfold Strconv.Itoa. intros Heq.
  assert (Hn : forall z, NilZero.int_of_string (NilZero.string_of_int (Z.to_int z))
                         = Some (Z.to_int z)).
  { intros z. apply NilZero.isi; destruct z; simpl; try discriminate;
      intros [= Hz]; now apply Unsigned.to_uint_nonnil in Hz. }
  apply DecimalZ.to_int_inj.
  pose proof (Hn n) as H1. rewrite Heq, Hn in H1. congruence.
Qed.

(** X15: the message of the generic error tells the status code: two
    responses whose generic errors have the same message have the same
    status code, and bodies with the same quoted form. *)
Theorem generic_error_tells_status {lib : Library} (resp resp' : Http.Response) :
  Error (Spec.generic_error resp) = Error (Spec.generic_error resp') ->
  Http.StatusCode resp = Http.StatusCode resp'
  /\ Strconv.Quote (Http.content (Http.Body resp))
     = Strconv.Quote (Http.content (Http.Body resp')).
Proof.
  rewrite !generic_error_message. intros Heq.
  apply String.app_inj in Heq.
  change (". Body: " +:+ ?x) with (String "." (" Body: " +:+ x)) in Heq.
  destruct (first_separator_unique "." _ _ _ _
              (Itoa_no_dot _) (Itoa_no_dot _) Heq) as [Hi Hq].
  split; [now apply Itoa_injective|].
  now apply String.app_inj in Hq.
Qed.

Section Reading.

Context {lib : Library} {net : Network} {ipvs : Ipvs.Types}.

Implicit Types (c : Api.Client) (resp : Http.Response) (log : list event).

Lemma GetService_cases c (id : string) log :
  (exists svc e, fst (Api.GetService c id log) = (svc, Some e))
  \/ (exists resp,
        Spec.answered c (Spec.get_request (Api.path c ["services"; id])) resp
        /\ Http.StatusCode resp = 200
        /\ fst (Api.GetService c id log) = Spec.decoded resp None).
Proof.
  set (url := Api.path c ["services"; id]).
  destruct (url_Parse url) as [e|] eqn:Hu.
  { left. exists None, e.
    unfold Api.GetService, HttpClient.Get, HttpClient.NewRequest.
    fold url. now rewrite Hu. }
  destruct (exchange (Api.HttpClient c) (Spec.get_request url)) as [e|resp] eqn:He.
  { left. exists None, e. unfold Api.GetService. fold url.
    unfold mbind at 1. unfold M_bind at 1.
    now rewrite (Get_failed c url e log (conj Hu He)). }
  assert (Ha : Spec.answered c (Spec.get_request url) resp) by (split; assumption).
  rewrite (GetService_run _ _ _ _ Ha).
  destruct (Z.eqb_spec (Http.StatusCode resp) 200) as [Hs|Hs].
  - right. now exists resp.
  - left. destruct (Http.StatusCode resp =? 404); eauto.
Qed.

Lemma GetServices_cases c log :
  (exists l e, fst (Api.GetServices c log) = (l, Some e))
  \/ (exists resp,
        Spec.answered c (Spec.get_request (Api.path c ["services"])) resp
        /\ ((Http.StatusCode resp = 200
             /\ fst (Api.GetServices c log) = Spec.decoded resp None)
            \/ (Http.StatusCode resp = 204
                /\ fst (Api.GetServices c log) = (Some [], None)))).
Proof.
  set (url := Api.path c ["services"]).
  destruct (url_Parse url) as [e|] eqn:Hu.
  { left. exists None, e.
    unfold Api.GetServices, HttpClient.Get, HttpClient.NewRequest.
    fold url. now rewrite Hu. }
  destruct (exchange (Api.HttpClient c) (Spec.get_request url)) as [e|resp] eqn:He.
  { left. exists None, e. unfold Api.GetServices. fold url.
    unfold mbind at 1. unfold M_bind at 1.
    now rewrite (Get_failed c url e log (conj Hu He)). }
  assert (Ha : Spec.answered c (Spec.get_request url) resp) by (split; assumption).
  rewrite (GetServices_run _ _ _ Ha).
  destruct (Z.eqb_spec (Http.StatusCode resp) 200) as [Hs|Hs].
  - right. exists resp. split; [exact Ha | now left].
  - destruct (Z.eqb_spec (Http.StatusCode resp) 204) as [Hn|Hn].
    + right. exists resp. split; [exact Ha | now right].
    + left. eauto.
Qed.

(** X16: whatever the address and the network, [GetService] returns no
    error only when the server has answered with status 200, and what it
    returns is then what decoding the body gave; [GetServices] returns no
    error only when the server has answered with status 200, in the same
    way, or with status 204, and then it returns the empty slice. *)
Theorem reading_succeeds_on_200_or_204 c log :
  (forall id : string,
      snd (fst (Api.GetService c id log)) = None ->
      exists resp,
        Spec.answered c (Spec.get_request (Api.path c ["services"; id])) resp
        /\ Http.StatusCode resp = 200
        /\ fst (Api.GetService c id log) = Spec.decoded resp None)
  /\ (snd (fst (Api.GetServices c log)) = None ->
      exists resp,
        Spec.answered c (Spec.get_request (Api.path c ["services"])) resp
        /\ ((Http.StatusCode resp = 200
             /\ fst (Api.GetServices c log) = Spec.decoded resp None)
            \/ (Http.StatusCode resp = 204
                /\ fst (Api.GetServices c log) = (Some [], None)))).
Proof.
  split.
  - intros id Hn.
    destruct (GetService_cases c id log) as [(svc & e & He) | Hok];
      [rewrite He in Hn; discriminate | exact Hok].
  - intros Hn.
    destruct (GetServices_cases c log) as [(l & e & He) | Hok];
      [rewrite He in Hn; discriminate | exact Hok].
Qed.

End Reading.

(** ** The further properties on concrete servers *)

Section MoreWitnesses.

#[local] Existing Instance Sample.library.
#[local] Existing Instance Sample.types.

(** X1, on a server that answers 200, and on a server that knows one
    service only. *)
Lemma Delete_by_status_witness :
  fst (Api.DeleteService (net := Sample.server Sample2.deleted) Sample.client "7" [])
  = None
  /\ fst (Api.DeleteDestination (net := Sample.server Sample2.deleted)
            Sample.client "5" "7" [])
     = None
  /\ fst (Api.DeleteService (net := Sample2.one_service_only) Sample.client "7" [])
     = None.
Proof.
  destruct (Delete_by_status (net := Sample.server Sample2.deleted)
              Sample.client []) as [Hs Hd].
  destruct (Delete_by_status (net := Sample2.one_service_only)
              Sample.client []) as [Hs' _].
  split; [|split].
  - apply (Hs "7" Sample2.deleted); [split; reflexivity | reflexivity].
  - apply (Hd "5" "7" Sample2.deleted); [split; reflexivity | reflexivity].
  - apply (Hs' "7" Sample2.deleted); [split; reflexivity | reflexivity].
Defined.

(** X1, on a server that answers 500. *)
Example DeleteService_failed :
  fst (Api.DeleteService (net := Sample.server Sample.failed) Sample.client "7" [])
  = Some (fmt_error ("Request failed. Status Code: 500. Body: "
                     +:+ Sample.quoted "backend is down")).
Proof. reflexivity. Qed.

(** X2, on a server that cannot be reached. *)
Lemma transport_error_returned_witness :
  Api.GetService (net := Sample2.unreachable) Sample.client "7" []
  = ((None, Some Sample2.refused),
     [Sent (Api.HttpClient Sample.client)
        (Spec.get_request "http://host/services/7")])
  /\ Api.DeleteDestination (net := Sample2.unreachable) Sample.client "5" "7" []
     = (Some Sample2.refused,
        [Sent (Api.HttpClient Sample.client)
           (Spec.delete_request "http://host/services/5/destinations/7")]).
Proof.
  destruct (transport_error_returned (ipvs := Sample.types)
              (net := Sample2.unreachable) Sample.client Sample2.refused [])
    as (Hget & _ & _ & _ & _ & Hdel).
  split.
  - apply Hget. split; reflexivity.
  - apply Hdel. split; reflexivity.
Defined.

(** X3, on identifiers with a line feed in them. *)
Lemma refused_address_sends_nothing_witness :
  Api.GetService (net := Sample2.strict) Sample.client Sample2.bad_id []
  = ((None, Some Sample2.control_character), [])
  /\ Api.DeleteService (net := Sample2.strict) Sample.client Sample2.bad_id []
     = (Some Sample2.control_character, [])
  /\ Api.AddDestination (ipvs := Sample.types) (net := Sample2.strict) Sample.client
       Sample2.bad_backend []
     = (("", Some Sample2.control_character), []).
Proof.
  destruct (refused_address_sends_nothing (ipvs := Sample.types)
              (net := Sample2.strict) Sample.client Sample2.control_character [])
    as (Hid & _ & Hadd & _).
  destruct (Hid Sample2.bad_id eq_refl) as [Hget Hdel].
  split; [exact Hget | split; [exact Hdel|]].
  apply (Hadd Sample2.bad_backend
           (default "" (match Sample.marshal_destination Sample2.bad_backend with
                        | inr j => Some j | inl _ => None end)));
    reflexivity.
Defined.

(** X4, on a server that answers 404: [GetService] closes the body without
    reading it, [DeleteService] reads it and then closes it. *)
Lemma body_closed_after_response_witness :
  snd (Api.GetService (net := Sample.server Sample.not_found) Sample.client "7" [])
  = [Sent (Api.HttpClient Sample.client) (Spec.get_request "http://host/services/7");
     BodyClosed (Http.Body Sample.not_found)]
  /\ snd (Api.DeleteService (net := Sample.server Sample.not_found)
            Sample.client "7" [])
     = [Sent (Api.HttpClient Sample.client)
          (Spec.delete_request "http://host/services/7");
        BodyRead (Http.Body Sample.not_found);
        BodyClosed (Http.Body Sample.not_found)].
Proof.
  destruct (body_closed_after_response (ipvs := Sample.types)
              (net := Sample.server Sample.not_found)
              Sample.client Sample.not_found [])
    as (Hget & _ & _ & Hdel & _).
  split.
  - apply Hget. split; reflexivity.
  - apply Hdel. split; reflexivity.
Defined.

(** X10, on the server that creates, and on the server that answers the
    creation of services only. *)
Lemma created_identifier_addresses_location_witness :
  fst (Api.CreateService (ipvs := Sample.types) (net := Sample.creating_server)
         Sample.client Sample.web [])
  = ("42", None)
  /\ Api.path Sample.client ["services"; "42"] = "http://host/services/42"
  /\ fst (Api.AddDestination (ipvs := Sample.types) (net := Sample.creating_server)
            Sample.client Sample.backend [])
     = ("7", None)
  /\ fst (Api.CreateService (ipvs := Sample.types) (net := Sample2.services_only)
            Sample.client Sample.web [])
     = ("42", None).
Proof.
  destruct (created_identifier_addresses_location (ipvs := Sample.types)
              (net := Sample.creating_server) Sample.client []) as [Hs Hd].
  destruct (created_identifier_addresses_location (ipvs := Sample.types)
              (net := Sample2.services_only) Sample.client []) as [Hs' _].
  split; [|split; [reflexivity | split]].
  - apply (Hs Sample.web
             (default "" (match Sample.marshal_service Sample.web with
                          | inr j => Some j | inl _ => None end))
             "42" Sample.created_service);
      try reflexivity; split; reflexivity.
  - apply (Hd Sample.backend
             (default "" (match Sample.marshal_destination Sample.backend with
                          | inr j => Some j | inl _ => None end))
             "7" Sample.created_destination);
      try reflexivity; split; reflexivity.
  - apply (Hs' Sample.web
             (default "" (match Sample.marshal_service Sample.web with
                          | inr j => Some j | inl _ => None end))
             "42" Sample.created_service);
      try reflexivity; split; reflexivity.
Defined.

(** X11, on a body whose reading breaks off and on a body that is not
    JSON. *)
Lemma unusable_body_witness :
  fst (Api.GetService (net := Sample.server Sample2.truncated) Sample.client "7" [])
  = (None, Some Sample2.broken_off)
  /\ fst (Api.GetServices (net := Sample.server Sample2.not_json) Sample.client [])
     = (None,
        Some (fmt_error ("unable to unmarshal body " +:+ Sample.quoted "<html>"
                         +:+ ": invalid JSON text"))).
Proof.
  split.
  - destruct (unusable_body (net := Sample.server Sample2.truncated)
                Sample.client Sample2.truncated [] eq_refl) as [Hread _].
    apply (Hread Sample2.broken_off eq_refl). split; reflexivity.
  - destruct (unusable_body (net := Sample.server Sample2.not_json)
                Sample.client Sample2.not_json [] eq_refl) as [_ Hsyntax].
    apply (Hsyntax eq_refl eq_refl). split; reflexivity.
Defined.

(** X12, on the body [null] with spaces around it and on the body [[]]. *)
Lemma null_and_empty_bodies_witness :
  fst (Api.GetService (net := Sample.server Sample2.null_padded) Sample.client "7" [])
  = (None, None)
  /\ fst (Api.GetServices (net := Sample.server Sample2.null_padded) Sample.client [])
     = (None, None)
  /\ fst (Api.GetServices (net := Sample.server Sample2.empty_array) Sample.client [])
     = (Some [], None).
Proof.
  destruct (null_and_empty_bodies (net := Sample.server Sample2.null_padded)
              Sample.client Sample2.null_padded [] eq_refl eq_refl) as [Hnull _].
  destruct (Hnull eq_refl) as [Hone Hall].
  destruct (null_and_empty_bodies (net := Sample.server Sample2.empty_array)
              Sample.client Sample2.empty_array [] eq_refl eq_refl) as [_ Hempty].
  split; [|split].
  - apply Hone. split; reflexivity.
  - apply Hall. split; reflexivity.
  - apply Hempty; [reflexivity | split; reflexivity].
Defined.

(** X13, on the body [5]: a number is not a service. *)
Lemma GetService_service_and_error_witness :
  fst (Api.GetService (net := Sample.server Sample2.number_body) Sample.client "7" [])
  = (Some (@Json.zero _ Sample.service_entity),
     Some (fmt_error ("unable to unmarshal body " +:+ Sample.quoted "5"
                      +:+ ": json: cannot unmarshal number into Go value of type ipvs.Service"))).
Proof.
  apply (GetService_service_and_error (ipvs := Sample.types)
           (net := Sample.server Sample2.number_body)
           Sample.client "7" Sample2.number_body (Json.Number "5")
           (@Json.zero _ Sample.service_entity)
           (Json.Saved (Json.UnmarshalTypeError (Json.Number "5") "ipvs.Service"))
           (Json.UnmarshalTypeError (Json.Number "5") "ipvs.Service") []);
    try reflexivity; [split; reflexivity | discriminate].
Defined.

(** X14, on the server that creates: the success of [CreateService] points
    to a response with status 201. *)
Lemma success_comes_from_the_server_witness :
  exists json resp,
    Api.encode (entity := Sample.service_entity) Sample.web = inr json
    /\ Spec.answered (net := Sample.creating_server) Sample.client
         (Spec.post_request (Api.path Sample.client ["services"]) json) resp
    /\ Http.StatusCode resp = 201
    /\ fst (fst (Api.CreateService (ipvs := Sample.types)
                   (net := Sample.creating_server) Sample.client Sample.web []))
       = Api.idFromLocation resp.
Proof.
  destruct (success_comes_from_the_server (ipvs := Sample.types)
              (net := Sample.creating_server) Sample.client [])
    as (Hcreate & _).
  destruct (Hcreate Sample.web) as [_ Hok].
  apply Hok. reflexivity.
Defined.

(** X15, on two responses that differ in their headers only. *)
Lemma generic_error_tells_status_witness :
  Http.StatusCode (Sample.response 500 None "backend is down")
  = Http.StatusCode (Sample.response 500 (Some "http://host/") "backend is down").
Proof.
  apply (generic_error_tells_status
           (Sample.response 500 None "backend is down")
           (Sample.response 500 (Some "http://host/") "backend is down")).
  reflexivity.
Defined.

(** X16, on a server that knows the service. *)
Lemma reading_succeeds_on_200_or_204_witness :
  exists resp,
    Spec.answered (net := Sample.server Sample.found) Sample.client
      (Spec.get_request (Api.path Sample.client ["services"; "7"])) resp
    /\ Http.StatusCode resp = 200
    /\ fst (Api.GetService (net := Sample.server Sample.found) Sample.client "7" [])
       = Spec.decoded resp None.
Proof.
  destruct (reading_succeeds_on_200_or_204 (net := Sample.server Sample.found)
              Sample.client []) as [Hone _].
  apply Hone. reflexivity.
Defined.

End MoreWitnesses.

(** ** Where the sentinel comes from *)

Section Sentinel.

Context {lib : Library} {net : Network} {ipvs : Ipvs.Types}.

Implicit Types (c : Api.Client) (resp : Http.Response) (log : list event).

Lemma decoded_not_sentinel {T : Type} {target : Json.Target T} resp (obj : T) :
  Http.read_error (Http.Body resp) <> Some ErrNoSuchService ->
  snd (Spec.decoded resp obj) <> Some ErrNoSuchService.
Proof.
  intros Hr. unfold Spec.decoded, Api.decode. unfold_M. cbn.
  destruct (Http.read_error (Http.Body resp)) as [e|]; [exact Hr|].
  destruct (Json.Unmarshal _ _) as [o [e|]]; discriminate.
Qed.

(** X17: when the libraries never return the sentinel themselves (not
    [net/url], not the transport, not the reading of a body, not
    [json.Marshal]), [GetService] returns [ErrNoSuchService] only when the
    server has answered with status 404, and no other operation returns it,
    whatever the status. *)
Theorem sentinel_means_404 c log :
  (forall url : string, url_Parse url <> Some ErrNoSuchService) ->
  (forall req : Http.Request,
      exchange (Api.HttpClient c) req <> inl ErrNoSuchService) ->
  (forall (req : Http.Request) resp,
      exchange (Api.HttpClient c) req = inr resp ->
      Http.read_error (Http.Body resp) <> Some ErrNoSuchService) ->
  (forall svc : Ipvs.Service, Json.Marshal svc <> inl ErrNoSuchService) ->
  (forall dst : Ipvs.Destination, Json.Marshal dst <> inl ErrNoSuchService) ->
  (forall id : string,
      snd (fst (Api.GetService c id log)) = Some ErrNoSuchService ->
      exists resp,
        Spec.answered c (Spec.get_request (Api.path c ["services"; id])) resp
        /\ Http.StatusCode resp = 404)
  /\ snd (fst (Api.GetServices c log)) <> Some ErrNoSuchService
  /\ (forall svc : Ipvs.Service,
        snd (fst (Api.CreateService c svc log)) <> Some ErrNoSuchService)
  /\ (forall id : string,
        fst (Api.DeleteService c id log) <> Some ErrNoSuchService)
  /\ (forall dst : Ipvs.Destination,
        snd (fst (Api.AddDestination c dst log)) <> Some ErrNoSuchService)
  /\ (forall serviceId destinationId : string,
        fst (Api.DeleteDestination c serviceId destinationId log)
        <> Some ErrNoSuchService).
Proof.
  intros Hurl Hex Hread Hsvc Hdst.
  refine (conj _ (conj _ (conj _ (conj _ (conj _ _))))).
  - intros id. set (url := Api.path c ["services"; id]).
    destruct (url_Parse url) as [e|] eqn:Hu.
    { unfold Api.GetService, HttpClient.Get, HttpClient.NewRequest.
      fold url. rewrite Hu. cbn. intros [= ->]. now apply Hurl in Hu. }
    destruct (exchange (Api.HttpClient c) (Spec.get_request url)) as [e|resp] eqn:He.
    { unfold Api.GetService. fold url. unfold mbind at 1. unfold M_bind at 1.
      rewrite (Get_failed c url e log (conj Hu He)). cbn.
      intros [= ->]. now apply Hex in He. }
    assert (Ha : Spec.answered c (Spec.get_request url) resp) by (split; assumption).
    rewrite (GetService_run _ _ _ _ Ha).
    destruct (Z.eqb_spec (Http.StatusCode resp) 200) as [Hs|Hs].
    + cbn [fst]. intros Hn.
      now apply (decoded_not_sentinel resp None (Hread _ _ He)) in Hn.
    + destruct (Z.eqb_spec (Http.StatusCode resp) 404) as [Hn|Hn].
      * intros _. now exists resp.
      * discriminate.
  - set (url := Api.path c ["services"]).
    destruct (url_Parse url) as [e|] eqn:Hu.
    { unfold Api.GetServices, HttpClient.Get, HttpClient.NewRequest.
      fold url. rewrite Hu. cbn. intros [= ->]. now apply Hurl in Hu. }
    destruct (exchange (Api.HttpClient c) (Spec.get_request url)) as [e|resp] eqn:He.
    { unfold Api.GetServices. fold url. unfold mbind at 1. unfold M_bind at 1.
      rewrite (Get_failed c url e log (conj Hu He)). cbn.
      intros [= ->]. now apply Hex in He. }
    assert (Ha : Spec.answered c (Spec.get_request url) resp) by (split; assumption).
    rewrite (GetServices_run _ _ _ Ha).
    destruct (Http.StatusCode resp =? 200).
    + cbn [fst]. apply (decoded_not_sentinel resp None (Hread _ _ He)).
    + destruct (Http.StatusCode resp =? 204); discriminate.
  - intros svc. destruct (Api.encode svc) as [e|json] eqn:Hm.
    { unfold Api.CreateService. rewrite Hm. cbn. intros [= ->].
      unfold Api.encode in Hm. destruct (Json.Marshal svc) eqn:Hj; [|discriminate].
      injection Hm as ->. now apply Hsvc in Hj. }
    set (url := Api.path c ["services"]).
    destruct (url_Parse url) as [e|] eqn:Hu.
    { unfold Api.CreateService, HttpClient.Post, HttpClient.NewRequest.
      fold url. rewrite Hm, Hu. cbn. intros [= ->]. now apply Hurl in Hu. }
    destruct (exchange (Api.HttpClient c) (Spec.post_request url json))
      as [e|resp] eqn:He.
    { unfold Api.CreateService. rewrite Hm. fold url.
      unfold mbind at 1. unfold M_bind at 1.
      rewrite (Post_failed c url json e log (conj Hu He)). cbn.
      intros [= ->]. now apply Hex in He. }
    assert (Ha : Spec.answered c (Spec.post_request url json) resp)
      by (split; assumption).
    rewrite (CreateService_run _ _ _ _ _ Hm Ha).
    destruct (Http.StatusCode resp =? 201); discriminate.
  - intros id. set (url := Api.path c ["services"; id]).
    destruct (url_Parse url) as [e|] eqn:Hu.
    { unfold Api.DeleteService, HttpClient.NewRequest.
      fold url. rewrite Hu. cbn. intros [= ->]. now apply Hurl in Hu. }
    destruct (exchange (Api.HttpClient c) (Spec.delete_request url))
      as [e|resp] eqn:He.
    { unfold Api.DeleteService. fold url.
      destruct (Delete_failed c url e log (conj Hu He)) as [Hn Hd]. rewrite Hn.
      unfold mbind at 1. unfold M_bind at 1. rewrite Hd. cbn.
      intros [= ->]. now apply Hex in He. }
    assert (Ha : Spec.answered c (Spec.delete_request url) resp)
      by (split; assumption).
    rewrite (DeleteService_run _ _ _ _ Ha).
    destruct (Http.StatusCode resp =? 200); discriminate.
  - intros dst. destruct (Api.encode dst) as [e|json] eqn:Hm.
    { unfold Api.AddDestination. rewrite Hm. cbn. intros [= ->].
      unfold Api.encode in Hm. destruct (Json.Marshal dst) eqn:Hj; [|discriminate].
      injection Hm as ->. now apply Hdst in Hj. }
    set (url := Api.path c ["services"; Ipvs.ServiceId dst; "destinations"]).
    destruct (url_Parse url) as [e|] eqn:Hu.
    { unfold Api.AddDestination, HttpClient.Post, HttpClient.NewRequest.
      fold url. rewrite Hm, Hu. cbn. intros [= ->]. now apply Hurl in Hu. }
    destruct (exchange (Api.HttpClient c) (Spec.post_request url json))
      as [e|resp] eqn:He.
    { unfold Api.AddDestination. rewrite Hm. fold url.
      unfold mbind at 1. unfold M_bind at 1.
      rewrite (Post_failed c url json e log (conj Hu He)). cbn.
      intros [= ->]. now apply Hex in He. }
    assert (Ha : Spec.answered c (Spec.post_request url json) resp)
      by (split; assumption).
    rewrite (AddDestination_run _ _ _ _ _ Hm Ha).
    destruct (Http.StatusCode resp =? 201); discriminate.
  - intros sid did.
    set (url := Api.path c ["services"; sid; "destinations"; did]).
    destruct (url_Parse url) as [e|] eqn:Hu.
    { unfold Api.DeleteDestination, HttpClient.NewRequest.
      fold url. rewrite Hu. cbn. intros [= ->]. now apply Hurl in Hu. }
    destruct (exchange (Api.HttpClient c) (Spec.delete_request url))
      as [e|resp] eqn:He.
    { unfold Api.DeleteDestination. fold url.
      destruct (Delete_failed c url e log (conj Hu He)) as [Hn Hd]. rewrite Hn.
      unfold mbind at 1. unfold M_bind at 1. rewrite Hd. cbn.
      intros [= ->]. now apply Hex in He. }
    assert (Ha : Spec.answered c (Spec.delete_request url) resp)
      by (split; assumption).
    rewrite (DeleteDestination_run _ _ _ _ _ Ha).
    destruct (Http.StatusCode resp =? 200); discriminate.
Qed.

End Sentinel.

(** X17, on a server that answers every request with 404: the sentinel of
    [GetService] points to that response, and [DeleteService] does not
    return the sentinel. *)
Lemma sentinel_means_404_witness :
  (exists resp,
      Spec.answered (net := Sample.server Sample.not_found) Sample.client
        (Spec.get_request (Api.path Sample.client ["services"; "7"])) resp
      /\ Http.StatusCode resp = 404)
  /\ fst (Api.DeleteService (lib := Sample.library)
            (net := Sample.server Sample.not_found) Sample.client "7" [])
     <> Some ErrNoSuchService.
Proof.
  destruct (sentinel_means_404 (lib := Sample.library) (ipvs := Sample.types)
              (net := Sample.server Sample.not_found) Sample.client [])
    as (Hget & _ & _ & Hdel & _).
  - discriminate.
  - discriminate.
  - intros req resp [= <-]. discriminate.
  - intros svc. cbn. unfold Sample.marshal_service, Sample.ip_text.
    destruct (list_ascii_of_string (Sample.Service_Host svc)) as [|? [|? [|? [|? [|? ?]]]]];
      discriminate.
  - intros dst. cbn. unfold Sample.marshal_destination, Sample.ip_text.
    destruct (list_ascii_of_string (Sample.Destination_Host dst)) as [|? [|? [|? [|? [|? ?]]]]];
      discriminate.
  - split; [apply (Hget "7"); reflexivity | apply Hdel].
Defined.

(** ** Where the errors of the operations come from *)

Section Origins.

Context {lib : Library} {net : Network} {ipvs : Ipvs.Types}.

Implicit Types (c : Api.Client) (resp : Http.Response) (log : list event)
  (e : error).

(** The error of [decode] is the error of the reading, or one made by
    [fmt.Errorf]. *)
Lemma decoded_error_origin {T : Type} {target : Json.Target T} resp (obj : T) e :
  snd (Spec.decoded resp obj) = Some e ->
  Http.read_error (Http.Body resp) = Some e \/ exists msg, e = fmt_error msg.
Proof.
  unfold Spec.decoded, Api.decode. unfold_M. cbn.
  destruct (Http.read_error (Http.Body resp)) as [r|].
  - cbn. intros [= ->]. now left.
  - destruct (Json.Unmarshal _ _) as [o [u|]]; cbn; [|discriminate].
    intros [= <-]. right. eauto.
Qed.

(** The error of [GetService] is one that a library returned, one made by
    [fmt.Errorf], or the sentinel after a response with status 404. *)
Lemma GetService_error_origin c (id : string) log e :
  snd (fst (Api.GetService c id log)) = Some e ->
  let req := Spec.get_request (Api.path c ["services"; id]) in
  url_Parse (Http.URL req) = Some e
  \/ exchange (Api.HttpClient c) req = inl e
  \/ (exists resp, exchange (Api.HttpClient c) req = inr resp
                   /\ Http.read_error (Http.Body resp) = Some e)
  \/ (exists msg, e = fmt_error msg)
  \/ (e = ErrNoSuchService
      /\ exists resp, Spec.answered c req resp /\ Http.StatusCode resp = 404).
Proof.
  intros Hres req. subst req. cbn [Http.URL Spec.get_request].
  set (url := Api.path c ["services"; id]) in *.
  destruct (url_Parse url) as [u|] eqn:Hu.
  { left. revert Hres.
    unfold Api.GetService, HttpClient.Get, HttpClient.NewRequest.
    fold url. rewrite Hu. unfold_M. cbn [fst snd]. intros [= <-]. first [assumption | reflexivity]. }
  destruct (exchange (Api.HttpClient c) (Spec.get_request url)) as [x|resp] eqn:He.
  { right; left. revert Hres. unfold Api.GetService. fold url.
    unfold mbind at 1. unfold M_bind at 1.
    rewrite (Get_failed c url x log (conj Hu He)). unfold_M. cbn [fst snd]. intros [= <-]. first [assumption | reflexivity]. }
  assert (Ha : Spec.answered c (Spec.get_request url) resp) by (split; assumption).
  rewrite (GetService_run _ _ _ _ Ha) in Hres.
  destruct (Z.eqb_spec (Http.StatusCode resp) 200) as [Hs|Hs].
  - cbn [fst] in Hres. destruct (decoded_error_origin _ _ _ Hres) as [Hr|Hf].
    + right; right; left. now exists resp.
    + right; right; right; left. exact Hf.
  - destruct (Z.eqb_spec (Http.StatusCode resp) 404) as [Hn|Hn].
    + right; right; right; right. cbn in Hres. injection Hres as <-.
      split; [reflexivity | now exists resp].
    + right; right; right; left. cbn in Hres. injection Hres as <-.
      unfold Spec.generic_error. cbn. eauto.
Qed.

(** The error of [GetServices] is one that a library returned or one made
    by [fmt.Errorf]. *)
Lemma GetServices_error_origin c log e :
  snd (fst (Api.GetServices c log)) = Some e ->
  let req := Spec.get_request (Api.path c ["services"]) in
  url_Parse (Http.URL req) = Some e
  \/ exchange (Api.HttpClient c) req = inl e
  \/ (exists resp, exchange (Api.HttpClient c) req = inr resp
                   /\ Http.read_error (Http.Body resp) = Some e)
  \/ (exists msg, e = fmt_error msg).
Proof.
  intros Hres req. subst req. cbn [Http.URL Spec.get_request].
  set (url := Api.path c ["services"]) in *.
  destruct (url_Parse url) as [u|] eqn:Hu.
  { left. revert Hres.
    unfold Api.GetServices, HttpClient.Get, HttpClient.NewRequest.
    fold url. rewrite Hu. unfold_M. cbn [fst snd]. intros [= <-]. first [assumption | reflexivity]. }
  destruct (exchange (Api.HttpClient c) (Spec.get_request url)) as [x|resp] eqn:He.
  { right; left. revert Hres. unfold Api.GetServices. fold url.
    unfold mbind at 1. unfold M_bind at 1.
    rewrite (Get_failed c url x log (conj Hu He)). unfold_M. cbn [fst snd]. intros [= <-]. first [assumption | reflexivity]. }
  assert (Ha : Spec.answered c (Spec.get_request url) resp) by (split; assumption).
  rewrite (GetServices_run _ _ _ Ha) in Hres.
  destruct (Z.eqb_spec (Http.StatusCode resp) 200) as [Hs|Hs].
  - cbn [fst] in Hres. destruct (decoded_error_origin _ _ _ Hres) as [Hr|Hf].
    + right; right; left. now exists resp.
    + right; right; right. exact Hf.
  - destruct (Http.StatusCode resp =? 204); cbn in Hres; [discriminate|].
    right; right; right. injection Hres as <-.
    unfold Spec.generic_error. cbn. eauto.
Qed.

(** The error of an operation that posts is one that a library returned or
    one made by [fmt.Errorf]. *)
Lemma CreateService_error_origin c (svc : Ipvs.Service) log e :
  snd (fst (Api.CreateService c svc log)) = Some e ->
  Json.Marshal svc = inl e
  \/ (exists url, url_Parse url = Some e)
  \/ (exists req, exchange (Api.HttpClient c) req = inl e)
  \/ (exists msg, e = fmt_error msg).
Proof.
  intros Hres.
  destruct (Api.encode svc) as [m|json] eqn:Hm.
  { left. revert Hres. unfold Api.CreateService. rewrite Hm. unfold_M. cbn. intros [= <-].
    unfold Api.encode in Hm. destruct (Json.Marshal svc); congruence. }
  set (url := Api.path c ["services"]) in *.
  destruct (url_Parse url) as [u|] eqn:Hu.
  { right; left. exists url. revert Hres.
    unfold Api.CreateService, HttpClient.Post, HttpClient.NewRequest.
    fold url. rewrite Hm, Hu. unfold_M. cbn [fst snd]. intros [= <-]. first [assumption | reflexivity]. }
  destruct (exchange (Api.HttpClient c) (Spec.post_request url json))
    as [x|resp] eqn:He.
  { right; right; left. exists (Spec.post_request url json). revert Hres.
    unfold Api.CreateService. rewrite Hm. fold url.
    unfold mbind at 1. unfold M_bind at 1.
    rewrite (Post_failed c url json x log (conj Hu He)). unfold_M. cbn [fst snd]. intros [= <-]. first [assumption | reflexivity]. }
  assert (Ha : Spec.answered c (Spec.post_request url json) resp)
    by (split; assumption).
  rewrite (CreateService_run _ _ _ _ _ Hm Ha) in Hres.
  destruct (Http.StatusCode resp =? 201); cbn in Hres; [discriminate|].
  right; right; right. injection Hres as <-.
  unfold Spec.generic_error. cbn. eauto.
Qed.

Lemma AddDestination_error_origin c (dst : Ipvs.Destination) log e :
  snd (fst (Api.AddDestination c dst log)) = Some e ->
  Json.Marshal dst = inl e
  \/ (exists url, url_Parse url = Some e)
  \/ (exists req, exchange (Api.HttpClient c) req = inl e)
  \/ (exists msg, e = fmt_error msg).
Proof.
  intros Hres.
  destruct (Api.encode dst) as [m|json] eqn:Hm.
  { left. revert Hres. unfold Api.AddDestination. rewrite Hm. unfold_M. cbn. intros [= <-].
    unfold Api.encode in Hm. destruct (Json.Marshal dst); congruence. }
  set (url := Api.path c ["services"; Ipvs.ServiceId dst; "destinations"]) in *.
  destruct (url_Parse url) as [u|] eqn:Hu.
  { right; left. exists url. revert Hres.
    unfold Api.AddDestination, HttpClient.Post, HttpClient.NewRequest.
    fold url. rewrite Hm, Hu. unfold_M. cbn [fst snd]. intros [= <-]. first [assumption | reflexivity]. }
  destruct (exchange (Api.HttpClient c) (Spec.post_request url json))
    as [x|resp] eqn:He.
  { right; right; left. exists (Spec.post_request url json). revert Hres.
    unfold Api.AddDestination. rewrite Hm. fold url.
    unfold mbind at 1. unfold M_bind at 1.
    rewrite (Post_failed c url json x log (conj Hu He)). unfold_M. cbn [fst snd]. intros [= <-]. first [assumption | reflexivity]. }
  assert (Ha : Spec.answered c (Spec.post_request url json) resp)
    by (split; assumption).
  rewrite (AddDestination_run _ _ _ _ _ Hm Ha) in Hres.
  destruct (Http.StatusCode resp =? 201); cbn in Hres; [discriminate|].
  right; right; right. injection Hres as <-.
  unfold Spec.generic_error. cbn. eauto.
Qed.

(** The error of an operation that deletes is one that a library returned
    or one made by [fmt.Errorf]. *)
Lemma DeleteService_error_origin c (id : string) log e :
  fst (Api.DeleteService c id log) = Some e ->
  (exists url, url_Parse url = Some e)
  \/ (exists req, exchange (Api.HttpClient c) req = inl e)
  \/ (exists msg, e = fmt_error msg).
Proof.
  intros Hres. set (url := Api.path c ["services"; id]) in *.
  destruct (url_Parse url) as [u|] eqn:Hu.
  { left. exists url. revert Hres.
    unfold Api.DeleteService, HttpClient.NewRequest.
    fold url. rewrite Hu. unfold_M. cbn [fst snd]. intros [= <-]. first [assumption | reflexivity]. }
  destruct (exchange (Api.HttpClient c) (Spec.delete_request url))
    as [x|resp] eqn:He.
  { right; left. exists (Spec.delete_request url). revert Hres.
    unfold Api.DeleteService. fold url.
    destruct (Delete_failed c url x log (conj Hu He)) as [Hn Hd]. rewrite Hn.
    unfold mbind at 1. unfold M_bind at 1. rewrite Hd. unfold_M. cbn [fst snd]. intros [= <-]. first [assumption | reflexivity]. }
  assert (Ha : Spec.answered c (Spec.delete_request url) resp)
    by (split; assumption).
  rewrite (DeleteService_run _ _ _ _ Ha) in Hres.
  destruct (Http.StatusCode resp =? 200); cbn in Hres; [discriminate|].
  right; right. injection Hres as <-. unfold Spec.generic_error. cbn. eauto.
Qed.

Lemma DeleteDestination_error_origin c (serviceId destinationId : string) log e :
  fst (Api.DeleteDestination c serviceId destinationId log) = Some e ->
  (exists url, url_Parse url = Some e)
  \/ (exists req, exchange (Api.HttpClient c) req = inl e)
  \/ (exists msg, e = fmt_error msg).
Proof.
  intros Hres.
  set (url := Api.path c ["services"; serviceId; "destinations"; destinationId]) in *.
  destruct (url_Parse url) as [u|] eqn:Hu.
  { left. exists url. revert Hres.
    unfold Api.DeleteDestination, HttpClient.NewRequest.
    fold url. rewrite Hu. unfold_M. cbn [fst snd]. intros [= <-]. first [assumption | reflexivity]. }
  destruct (exchange (Api.HttpClient c) (Spec.delete_request url))
    as [x|resp] eqn:He.
  { right; left. exists (Spec.delete_request url). revert Hres.
    unfold Api.DeleteDestination. fold url.
    destruct (Delete_failed c url x log (conj Hu He)) as [Hn Hd]. rewrite Hn.
    unfold mbind at 1. unfold M_bind at 1. rewrite Hd. unfold_M. cbn [fst snd]. intros [= <-]. first [assumption | reflexivity]. }
  assert (Ha : Spec.answered c (Spec.delete_request url) resp)
    by (split; assumption).
  rewrite (DeleteDestination_run _ _ _ _ _ Ha) in Hres.
  destruct (Http.StatusCode resp =? 200); cbn in Hres; [discriminate|].
  right; right. injection Hres as <-. unfold Spec.generic_error. cbn. eauto.
Qed.

End Origins.

(** ** The sentinel *)

Section OnlyGetService.

Context {lib : Library} {net : Network} {ipvs : Ipvs.Types}.

Implicit Types (c : Api.Client) (resp : Http.Response) (log : list event).

(** C4: on a response with status 404, [GetService] returns the sentinel
    [ErrNoSuchService], and each of the other operations, [GetServices],
    [CreateService], [DeleteService], [AddDestination] and
    [DeleteDestination], returns the generic formatted error, which is not
    the sentinel.  And the sentinel is produced there only: when no library
    returns the sentinel itself (not [net/url], not the transport, not the
    reading of a body, not [json.Marshal]), [GetService] returns it only
    after a response with status 404, and no other operation returns it,
    whatever the status and on every path. *)
Theorem sentinel_only_from_GetService c log :
  (forall resp,
      Http.StatusCode resp = 404 ->
      (forall id : string,
          Spec.answered c (Spec.get_request (Api.path c ["services"; id])) resp ->
          snd (fst (Api.GetService c id log)) = Some ErrNoSuchService)
      /\ (Spec.answered c (Spec.get_request (Api.path c ["services"])) resp ->
          Spec.generic_not_sentinel (snd (fst (Api.GetServices c log))) resp)
      /\ (forall (svc : Ipvs.Service) (json : string),
            Api.encode svc = inr json ->
            Spec.answered c (Spec.post_request (Api.path c ["services"]) json) resp ->
            Spec.generic_not_sentinel (snd (fst (Api.CreateService c svc log))) resp)
      /\ (forall id : string,
            Spec.answered c (Spec.delete_request (Api.path c ["services"; id])) resp ->
            Spec.generic_not_sentinel (fst (Api.DeleteService c id log)) resp)
      /\ (forall (dst : Ipvs.Destination) (json : string),
            Api.encode dst = inr json ->
            Spec.answered c
              (Spec.post_request
                 (Api.path c ["services"; Ipvs.ServiceId dst; "destinations"]) json)
              resp ->
            Spec.generic_not_sentinel (snd (fst (Api.AddDestination c dst log))) resp)
      /\ (forall serviceId destinationId : string,
            Spec.answered c
              (Spec.delete_request
                 (Api.path c ["services"; serviceId; "destinations"; destinationId]))
              resp ->
            Spec.generic_not_sentinel
              (fst (Api.DeleteDestination c serviceId destinationId log)) resp))
  /\ ((forall url : string, url_Parse url <> Some ErrNoSuchService) ->
      (forall req : Http.Request,
          exchange (Api.HttpClient c) req <> inl ErrNoSuchService) ->
      (forall (req : Http.Request) resp,
          exchange (Api.HttpClient c) req = inr resp ->
          Http.read_error (Http.Body resp) <> Some ErrNoSuchService) ->
      (forall svc : Ipvs.Service, Json.Marshal svc <> inl ErrNoSuchService) ->
      (forall dst : Ipvs.Destination, Json.Marshal dst <> inl ErrNoSuchService) ->
      (forall id : string,
          snd (fst (Api.GetService c id log)) = Some ErrNoSuchService ->
          exists resp,
            Spec.answered c (Spec.get_request (Api.path c ["services"; id])) resp
            /\ Http.StatusCode resp = 404)
      /\ snd (fst (Api.GetServices c log)) <> Some ErrNoSuchService
      /\ (forall svc : Ipvs.Service,
            snd (fst (Api.CreateService c svc log)) <> Some ErrNoSuchService)
      /\ (forall id : string,
            fst (Api.DeleteService c id log) <> Some ErrNoSuchService)
      /\ (forall dst : Ipvs.Destination,
            snd (fst (Api.AddDestination c dst log)) <> Some ErrNoSuchService)
      /\ (forall serviceId destinationId : string,
            fst (Api.DeleteDestination c serviceId destinationId log)
            <> Some ErrNoSuchService)).
Proof.
  split.
  - intros resp Hs. unfold Spec.generic_not_sentinel.
    refine (conj _ (conj _ (conj _ (conj _ (conj _ _))))).
    + intros id Ha. now rewrite (GetService_run _ _ _ _ Ha), Hs.
    + intros Ha. rewrite (GetServices_run _ _ _ Ha), Hs.
      split; [reflexivity | discriminate].
    + intros svc json He Ha. rewrite (CreateService_run _ _ _ _ _ He Ha), Hs.
      split; [reflexivity | discriminate].
    + intros id Ha. rewrite (DeleteService_run _ _ _ _ Ha), Hs.
      split; [reflexivity | discriminate].
    + intros dst json He Ha. rewrite (AddDestination_run _ _ _ _ _ He Ha), Hs.
      split; [reflexivity | discriminate].
    + intros sid did Ha. rewrite (DeleteDestination_run _ _ _ _ _ Ha), Hs.
      split; [reflexivity | discriminate].
  - intros Hurl Hex Hread Hsvc Hdst.
    refine (conj _ (conj _ (conj _ (conj _ (conj _ _))))).
    + intros id Hres.
      destruct (GetService_error_origin _ _ _ _ Hres)
        as [Hu | [He | [(resp & He & Hr) | [[msg Hf] | [_ Hok]]]]].
      * now apply Hurl in Hu.
      * now apply Hex in He.
      * now apply (Hread _ _ He) in Hr.
      * discriminate.
      * exact Hok.
    + intros Hres.
      destruct (GetServices_error_origin _ _ _ Hres)
        as [Hu | [He | [(resp & He & Hr) | [msg Hf]]]].
      * now apply Hurl in Hu.
      * now apply Hex in He.
      * now apply (Hread _ _ He) in Hr.
      * discriminate.
    + intros svc Hres.
      destruct (CreateService_error_origin _ _ _ _ Hres)
        as [Hm | [[url Hu] | [[req He] | [msg Hf]]]].
      * now apply Hsvc in Hm.
      * now apply Hurl in Hu.
      * now apply Hex in He.
      * discriminate.
    + intros id Hres.
      destruct (DeleteService_error_origin _ _ _ _ Hres)
        as [[url Hu] | [[req He] | [msg Hf]]].
      * now apply Hurl in Hu.
      * now apply Hex in He.
      * discriminate.
    + intros dst Hres.
      destruct (AddDestination_error_origin _ _ _ _ Hres)
        as [Hm | [[url Hu] | [[req He] | [msg Hf]]]].
      * now apply Hdst in Hm.
      * now apply Hurl in Hu.
      * now apply Hex in He.
      * discriminate.
    + intros sid did Hres.
      destruct (DeleteDestination_error_origin _ _ _ _ _ Hres)
        as [[url Hu] | [[req He] | [msg Hf]]].
      * now apply Hurl in Hu.
      * now apply Hex in He.
      * discriminate.
Qed.

End OnlyGetService.

(** The encoder of the stand-in types does not return the sentinel. *)
Lemma sample_marshal_not_sentinel :
  (forall svc : Sample.Service, Sample.marshal_service svc <> inl ErrNoSuchService)
  /\ (forall dst : Sample.Destination,
         Sample.marshal_destination dst <> inl ErrNoSuchService).
Proof.
  split.
  - intros svc. unfold Sample.marshal_service, Sample.ip_text.
    destruct (list_ascii_of_string (Sample.Service_Host svc))
      as [|? [|? [|? [|? [|? ?]]]]]; discriminate.
  - intros dst. unfold Sample.marshal_destination, Sample.ip_text.
    destruct (list_ascii_of_string (Sample.Destination_Host dst))
      as [|? [|? [|? [|? [|? ?]]]]]; discriminate.
Qed.

Section SentinelWitness.

#[local] Existing Instance Sample.library.
#[local] Existing Instance Sample.types.

(** C4, on a server that answers every request with 404, and on a server
    that answers every request with 500: there [GetService] does not return
    the sentinel, and neither does [DeleteService]. *)
Lemma sentinel_only_from_GetService_witness :
  snd (fst (Api.GetService (lib := Sample.library) (ipvs := Sample.types)
              (net := Sample.server Sample.not_found) Sample.client "7" []))
  = Some ErrNoSuchService
  /\ Spec.generic_not_sentinel
       (snd (fst (Api.GetServices (lib := Sample.library) (ipvs := Sample.types)
                    (net := Sample.server Sample.not_found) Sample.client [])))
       Sample.not_found
  /\ Spec.generic_not_sentinel
       (snd (fst (Api.CreateService (lib := Sample.library) (ipvs := Sample.types)
                    (net := Sample.server Sample.not_found)
                    Sample.client Sample.web [])))
       Sample.not_found
  /\ Spec.generic_not_sentinel
       (fst (Api.DeleteService (lib := Sample.library)
               (net := Sample.server Sample.not_found) Sample.client "7" []))
       Sample.not_found
  /\ Spec.generic_not_sentinel
       (snd (fst (Api.AddDestination (lib := Sample.library) (ipvs := Sample.types)
                    (net := Sample.server Sample.not_found)
                    Sample.client Sample.backend [])))
       Sample.not_found
  /\ Spec.generic_not_sentinel
       (fst (Api.DeleteDestination (lib := Sample.library)
               (net := Sample.server Sample.not_found) Sample.client "5" "7" []))
       Sample.not_found
  /\ snd (fst (Api.GetService (lib := Sample.library) (ipvs := Sample.types)
                 (net := Sample.server Sample.failed) Sample.client "7" []))
     <> Some ErrNoSuchService
  /\ fst (Api.DeleteService (lib := Sample.library)
            (net := Sample.server Sample.failed) Sample.client "7" [])
     <> Some ErrNoSuchService.
Proof.
  destruct (sentinel_only_from_GetService (lib := Sample.library)
              (ipvs := Sample.types) (net := Sample.server Sample.not_found)
              Sample.client []) as [H404 _].
  destruct (H404 Sample.not_found eq_refl)
    as (Hget & Hlist & Hcreate & Hdelete & Hadd & Hremove).
  destruct (sentinel_only_from_GetService (lib := Sample.library)
              (ipvs := Sample.types) (net := Sample.server Sample.failed)
              Sample.client []) as [_ Honly].
  destruct Honly as (Hone & _ & _ & Hdel & _).
  { discriminate. }
  { discriminate. }
  { intros req resp [= <-]. discriminate. }
  { apply sample_marshal_not_sentinel. }
  { apply sample_marshal_not_sentinel. }
  refine (conj _ (conj _ (conj _ (conj _ (conj _ (conj _ (conj _ _))))))).
  - apply Hget. split; reflexivity.
  - apply Hlist. split; reflexivity.
  - apply (Hcreate Sample.web
             (default "" (match Sample.marshal_service Sample.web with
                          | inr j => Some j | inl _ => None end)));
      [reflexivity | split; reflexivity].
  - apply Hdelete. split; reflexivity.
  - apply (Hadd Sample.backend
             (default "" (match Sample.marshal_destination Sample.backend with
                          | inr j => Some j | inl _ => None end)));
      [reflexivity | split; reflexivity].
  - apply Hremove. split; reflexivity.
  - intros Hs. destruct (Hone "7" Hs) as (resp & [_ Hx] & Hst).
    injection Hx as <-. discriminate Hst.
  - apply Hdel.
Defined.

End SentinelWitness.
